(** * Image2TextArt: the Electron shell around the conversion engine

    A shallow embedding of the JavaScript sources

      - [electron-gui/main.js]            (main process: result cache, IPC handlers)
      - [electron-gui/src/js/app.js]      (renderer: [AsciiArtGenerator])
      - [electron-gui/src/js/settings.js] (renderer: quick presets)

    JavaScript strings are carried as Rocq [string]s (the UTF-8 bytes of a
    well-formed string; every pattern the sources search for is ASCII, so it
    matches at the same places).  Objects are association lists in property
    insertion order, which is the order [JSON.stringify] and the spread
    operator observe. *)

From Stdlib Require Import List String Ascii ZArith NArith Lia Bool Arith.
From Stdlib Require Import DecimalString.
Import ListNotations.

Open Scope string_scope.

(* ------------------------------------------------------------------------- *)
(** ** Strings *)

Module Str.

(** [s.startsWith(p)] *)
Fixpoint starts_with (p s : string) : bool :=
  match p with
  | EmptyString => true
  | String a p' =>
      match s with
      | EmptyString => false
      | String b s' => Ascii.eqb a b && starts_with p' s'
      end
  end.

(** does the character occur in the string *)
Fixpoint mem (c : ascii) (s : string) : bool :=
  match s with
  | EmptyString => false
  | String x s' => Ascii.eqb c x || mem c s'
  end.

(** [t] is empty or begins with [x]. *)
Definition headed (x : ascii) (t : string) : Prop :=
  match t with
  | EmptyString => True
  | String c _ => c = x
  end.

(** [s.repeat(n)] *)
Fixpoint repeat (s : string) (n : nat) : string :=
  match n with
  | O => ""
  | S k => s ++ repeat s k
  end.

(** [l.join(sep)] *)
Fixpoint join (sep : string) (l : list string) : string :=
  match l with
  | [] => ""
  | [x] => x
  | x :: rest => x ++ sep ++ join sep rest
  end.

(** [s.split(sep)] for a one-character separator: never the empty list. *)
Fixpoint split_on (sep : ascii) (s : string) : list string :=
  match s with
  | EmptyString => [""]
  | String c rest =>
      if Ascii.eqb c sep then "" :: split_on sep rest
      else match split_on sep rest with
           | [] => [String c ""]
           | x :: xs => String c x :: xs
           end
  end.

End Str.

(* ------------------------------------------------------------------------- *)
(** ** JavaScript values and objects *)

Module Js.

(** A number.  The settings only ever hold what [parseInt] and [parseFloat]
    read from a form control: [NaN] or a short decimal [m / 10^e]. *)
Inductive Num : Type :=
| NaN
| Fin (m : Z) (e : nat).

Inductive Val : Type :=
| VUndefined
| VNull
| VBool (b : bool)
| VNum (n : Num)
| VStr (s : string).

(** An object with scalar properties, in insertion order. *)
Definition Obj : Type := list (string * Val).

(** [o[k]]: a missing property reads as [undefined]. *)
Fixpoint get (o : Obj) (k : string) : Val :=
  match o with
  | [] => VUndefined
  | (k', v) :: rest => if String.eqb k' k then v else get rest k
  end.

(** [o[k] = v]: an existing property keeps its place, a new one goes last. *)
Fixpoint set (o : Obj) (k : string) (v : Val) : Obj :=
  match o with
  | [] => [(k, v)]
  | (k', v') :: rest =>
      if String.eqb k' k then (k', v) :: rest else (k', v') :: set rest k v
  end.

(** [{...target, ...src}]: the own properties of [src] are assigned in order. *)
Definition spread (target src : Obj) : Obj :=
  fold_left (fun acc kv => set acc (fst kv) (snd kv)) src target.

(** Truthiness, as [if (v)], [!v] and [v || d] see it. *)
Definition num_is_zero (n : Num) : bool :=
  match n with
  | NaN => false
  | Fin m _ => Z.eqb m 0
  end.

Definition truthy (v : Val) : bool :=
  match v with
  | VUndefined | VNull => false
  | VBool b => b
  | VNum NaN => false
  | VNum n => negb (num_is_zero n)
  | VStr s => negb (String.eqb s "")
  end.

End Js.

(* ------------------------------------------------------------------------- *)
(** ** Number and JSON text *)

Module Text.

Import Js.

(** Decimal digits of a natural number. *)
Definition digits (n : N) : string := NilEmpty.string_of_uint (N.to_uint n).

(** Trailing zeros of the fraction are not printed: [1.50] is [1.5]. *)
Fixpoint strip_zeros (m : Z) (e : nat) : Z * nat :=
  match e with
  | O => (m, O)
  | S e' => if Z.eqb (Z.rem m 10) 0 then strip_zeros (Z.quot m 10) e' else (m, e)
  end.

(** [Number.prototype.toString()], for the magnitudes printed in plain
    decimal notation (1e-6 up to 1e21). *)
Definition num_to_string (n : Num) : string :=
  match n with
  | NaN => "NaN"
  | Fin m e =>
      let '(m', e') := strip_zeros m e in
      let a := Z.to_N (Z.abs m') in
      let sign := if Z.ltb m' 0 then "-" else "" in
      match e' with
      | O => sign ++ digits a
      | _ =>
          let p := N.pow 10 (N.of_nat e') in
          let frac := digits (N.modulo a p) in
          sign ++ digits (N.div a p) ++ "."
               ++ Str.repeat "0" (e' - String.length frac) ++ frac
      end
  end.

(** [String(v)], the coercion of template literals. *)
Definition to_string (v : Val) : string :=
  match v with
  | VUndefined => "undefined"
  | VNull => "null"
  | VBool true => "true"
  | VBool false => "false"
  | VNum n => num_to_string n
  | VStr s => s
  end.

(** [v.toString()]: a [TypeError] on [undefined] and [null]. *)
Definition toString_method (v : Val) : option string :=
  match v with
  | VUndefined | VNull => None
  | _ => Some (to_string v)
  end.

Definition dquote : ascii := ascii_of_N 34.
Definition backslash : ascii := ascii_of_N 92.

Definition hex_digit (n : N) : ascii :=
  ascii_of_N (if N.ltb n 10 then 48 + n else 87 + n).

(** One character inside a JSON string literal. *)
Definition escape_char (c : ascii) : string :=
  let n := N_of_ascii c in
  if N.eqb n 34 then String backslash (String dquote "")
  else if N.eqb n 92 then "\\"
  else if N.eqb n 8 then "\b"
  else if N.eqb n 12 then "\f"
  else if N.eqb n 10 then "\n"
  else if N.eqb n 13 then "\r"
  else if N.eqb n 9 then "\t"
  else if N.ltb n 32 then
    "\u00" ++ String (hex_digit (N.div n 16)) (String (hex_digit (N.modulo n 16)) "")
  else String c "".

Fixpoint escape (s : string) : string :=
  match s with
  | EmptyString => ""
  | String c rest => escape_char c ++ escape rest
  end.

Definition quote (s : string) : string :=
  String dquote (escape s ++ String dquote "").

(** [JSON.stringify] of a property value; [None] for a property that is
    left out of the object text. *)
Definition stringify_val (v : Val) : option string :=
  match v with
  | VUndefined => None
  | VNull => Some "null"
  | VBool true => Some "true"
  | VBool false => Some "false"
  | VNum NaN => Some "null"
  | VNum n => Some (num_to_string n)
  | VStr s => Some (quote s)
  end.

Fixpoint members (o : Obj) : list string :=
  match o with
  | [] => []
  | (k, v) :: rest =>
      match stringify_val v with
      | None => members rest
      | Some t => (quote k ++ ":" ++ t) :: members rest
      end
  end.

(** [JSON.stringify(o)] *)
Definition stringify (o : Obj) : string :=
  "{" ++ Str.join "," (members o) ++ "}".

End Text.

(* ------------------------------------------------------------------------- *)
(** ** Regular expressions of the sources, as scanners

    Each scanner walks the subject once from the left, as a global
    ([/g]) regular expression does: where the pattern matches, the match is
    consumed and the scan resumes after it ([skip] counts the characters of
    the match still to be passed over); elsewhere it moves one character. *)

Module Scan.

Definition is_digit (c : ascii) : bool :=
  let n := N_of_ascii c in N.leb 48 n && N.leb n 57.

(** [\w] *)
Definition is_word (c : ascii) : bool :=
  let n := N_of_ascii c in
  is_digit c || (N.leb 65 n && N.leb n 90) || (N.leb 97 n && N.leb n 122)
  || N.eqb n 95.

Fixpoint take_while (f : ascii -> bool) (s : string) : string :=
  match s with
  | EmptyString => ""
  | String c rest => if f c then String c (take_while f rest) else ""
  end.

Fixpoint drop_while (f : ascii -> bool) (s : string) : string :=
  match s with
  | EmptyString => ""
  | String c rest => if f c then drop_while f rest else s
  end.

Fixpoint drop (n : nat) (s : string) : string :=
  match n, s with
  | S k, String _ rest => drop k rest
  | _, _ => s
  end.

(** [(s.match(/pat/g) || []).length] for a literal pattern. *)
Fixpoint count_from (pat : string) (skip : nat) (s : string) : nat :=
  match s with
  | EmptyString => 0
  | String _ rest =>
      match skip with
      | S k => count_from pat k rest
      | O =>
          if Str.starts_with pat s
          then S (count_from pat (String.length pat - 1) rest)
          else count_from pat 0 rest
      end
  end.

Definition count_matches (pat s : string) : nat := count_from pat 0 s.

(** [s.match(/lit(cls+)/)]: the capture of the leftmost match. *)
Fixpoint match_capture (lit : string) (cls : ascii -> bool) (s : string)
  : option string :=
  match s with
  | EmptyString => None
  | String _ rest =>
      let cap := take_while cls (drop (String.length lit) s) in
      if Str.starts_with lit s && negb (String.eqb cap "")
      then Some cap
      else match_capture lit cls rest
  end.

(** [s.match(/lit(a|b)/)]: the alternative taken by the leftmost match. *)
Fixpoint match_either (lit a b : string) (s : string) : option string :=
  match s with
  | EmptyString => None
  | String _ rest =>
      if Str.starts_with (lit ++ a) s then Some a
      else if Str.starts_with (lit ++ b) s then Some b
      else match_either lit a b rest
  end.

(** Decimal value of a string of digits; [Number("")] is 0. *)
Definition digit_value (c : ascii) : N := N_of_ascii c - 48.

Fixpoint number_acc (acc : N) (s : string) : N :=
  match s with
  | EmptyString => acc
  | String c rest => number_acc (10 * acc + digit_value c) rest
  end.

Definition number (s : string) : N := number_acc 0 s.

End Scan.

(* ------------------------------------------------------------------------- *)
(** ** The renderer: [app.js] and [settings.js] *)

Module Renderer.

Import Js.

(** The fields of [AsciiArtGenerator] and the part of the page it writes. *)
Record App : Type := mkApp {
  settings : Obj;
  selectedImagePath : option string;
  asciiOutput : option string;
  isProcessing : bool;
  zoomLevel : N;
  controls : Obj;                       (* form controls, by element id *)
  status : option (string * string);    (* status message and its class *)
  loading : bool                        (* the loading overlay is shown *)
}.

(** The settings literal of the constructor. *)
Definition default_settings : Obj :=
  [ ("outputWidth", VNum (Fin 100 0));
    ("colorMode", VStr "ansi");
    ("dithering", VBool false);
    ("edgeDetect", VBool false);
    ("preset", VStr "classic");
    ("enhanceContrast", VBool true);
    ("aspectRatioCorrection", VNum (Fin 55 2));
    ("invert", VBool false);
    ("edgeThreshold", VNum (Fin 75 0));
    ("blur", VNum (Fin 0 0));
    ("sharpen", VNum (Fin 0 0));
    ("brightness", VNum (Fin 1 0));
    ("saturation", VNum (Fin 1 0));
    ("contrast", VNum (Fin 1 0));
    ("detailLevel", VNum (Fin 1 0));
    ("gamma", VNum (Fin 1 0));
    ("customChars", VStr "");
    ("fontFamily", VStr "monospace");
    ("fontSize", VNum (Fin 14 0));
    ("autoFit", VBool true);
    ("bgColor", VStr "#000000");
    ("textColor", VStr "#ffffff") ].

(** The settings a preset must not override ([displaySettings]). *)
Definition display_keys : list string :=
  ["fontFamily"; "fontSize"; "autoFit"; "bgColor"; "textColor"].

(** [updateUIFromSettings]: every control receives its setting. *)
Definition control_bindings : list (string * string) :=
  [ ("width-input", "outputWidth");
    ("color-mode-select", "colorMode");
    ("preset-select", "preset");
    ("aspect-ratio-slider", "aspectRatioCorrection");
    ("aspect-ratio-value", "aspectRatioCorrection");
    ("dithering-checkbox", "dithering");
    ("edge-detect-checkbox", "edgeDetect");
    ("enhance-contrast-checkbox", "enhanceContrast");
    ("invert-checkbox", "invert");
    ("edge-threshold-slider", "edgeThreshold");
    ("edge-threshold-value", "edgeThreshold");
    ("blur-slider", "blur");
    ("blur-value", "blur");
    ("sharpen-slider", "sharpen");
    ("sharpen-value", "sharpen");
    ("brightness-slider", "brightness");
    ("brightness-value", "brightness");
    ("saturation-slider", "saturation");
    ("saturation-value", "saturation");
    ("contrast-slider", "contrast");
    ("contrast-value", "contrast");
    ("detail-level-slider", "detailLevel");
    ("detail-level-value", "detailLevel");
    ("gamma-slider", "gamma");
    ("gamma-value", "gamma");
    ("font-family-select", "fontFamily");
    ("font-size-input", "fontSize");
    ("auto-fit-checkbox", "autoFit");
    ("bg-color-picker", "bgColor");
    ("bg-color-text", "bgColor");
    ("text-color-picker", "textColor");
    ("text-color-text", "textColor") ].

Definition updateUIFromSettings (app : App) : App :=
  let st := settings app in
  let bound :=
    fold_left (fun ui b => set ui (fst b) (get st (snd b)))
              control_bindings (controls app) in
  let custom := get st "customChars" in
  let ui := set bound "custom-chars-input"
                (if truthy custom then custom else VStr "") in
  mkApp st (selectedImagePath app) (asciiOutput app) (isProcessing app)
        (zoomLevel app) ui (status app) (loading app).

Definition showStatus (app : App) (message type : string) : App :=
  mkApp (settings app) (selectedImagePath app) (asciiOutput app)
        (isProcessing app) (zoomLevel app) (controls app)
        (Some (message, type)) (loading app).

Definition showLoading (app : App) (show : bool) : App :=
  mkApp (settings app) (selectedImagePath app) (asciiOutput app)
        (isProcessing app) (zoomLevel app) (controls app) (status app) show.

Definition with_settings (app : App) (st : Obj) : App :=
  mkApp st (selectedImagePath app) (asciiOutput app) (isProcessing app)
        (zoomLevel app) (controls app) (status app) (loading app).

(** [applyPreset(preset)] of [settings.js].  [window_app] is [window.app]
    ([None] before the page has loaded); a falsy [preset] is [None]. *)
Definition applyPreset (window_app : option App) (preset : option Obj)
  : option App :=
  match window_app, preset with
  | Some app, Some p =>
      let cur := settings app in
      let displaySettings : Obj :=
        [ ("fontFamily", get cur "fontFamily");
          ("fontSize", get cur "fontSize");
          ("autoFit", get cur "autoFit");
          ("bgColor", get cur "bgColor");
          ("textColor", get cur "textColor") ] in
      let app1 :=
        with_settings app (spread (spread (spread [] cur) p) displaySettings) in
      Some (showStatus (updateUIFromSettings app1) "Preset applied" "success")
  | _, _ => window_app
  end.

(** [const processingSettings = {...this.settings}] of [generateAsciiArt]:
    what the renderer sends with ['process-image']. *)
Definition processingSettings (app : App) : Obj := spread [] (settings app).

(** The quick presets of [settings.js] that [analyzeImage] suggests. *)
Definition preset_object (outputWidth : Z) (colorMode : string)
    (dithering edgeDetect : bool) (preset : string) (aspect : Num)
    (edgeThreshold : Z) (blur sharpen brightness saturation contrast
     detailLevel gamma : Num) : Obj :=
  [ ("outputWidth", VNum (Fin outputWidth 0));
    ("colorMode", VStr colorMode);
    ("dithering", VBool dithering);
    ("edgeDetect", VBool edgeDetect);
    ("preset", VStr preset);
    ("enhanceContrast", VBool true);
    ("aspectRatioCorrection", VNum aspect);
    ("invert", VBool false);
    ("edgeThreshold", VNum (Fin edgeThreshold 0));
    ("blur", VNum blur);
    ("sharpen", VNum sharpen);
    ("brightness", VNum brightness);
    ("saturation", VNum saturation);
    ("contrast", VNum contrast);
    ("detailLevel", VNum detailLevel);
    ("gamma", VNum gamma) ].

Definition PRESETS_photo : Obj :=
  preset_object 120 "ansi" true false "photo" (Fin 55 2) 75
    (Fin 0 0) (Fin 25 1) (Fin 115 2) (Fin 12 1) (Fin 13 1) (Fin 12 1) (Fin 1 0).

Definition PRESETS_lineart : Obj :=
  preset_object 100 "grayscale" false true "lineart" (Fin 55 2) 50
    (Fin 0 0) (Fin 3 0) (Fin 1 0) (Fin 0 0) (Fin 15 1) (Fin 15 1) (Fin 12 1).

Definition PRESETS_highdetail : Obj :=
  preset_object 160 "ansi" true false "ultra" (Fin 5 1) 75
    (Fin 0 0) (Fin 2 0) (Fin 1 0) (Fin 11 1) (Fin 13 1) (Fin 14 1) (Fin 1 0).

(** [toLowerCase] on the ASCII letters. *)
Definition to_lower (c : ascii) : ascii :=
  let n := N_of_ascii c in
  if N.leb 65 n && N.leb n 90 then ascii_of_N (n + 32) else c.

Fixpoint toLowerCase (s : string) : string :=
  match s with
  | EmptyString => ""
  | String c rest => String (to_lower c) (toLowerCase rest)
  end.



(** *** [processAnsiOutput] *)

Definition CR : ascii := ascii_of_N 13.
Definition LF : ascii := ascii_of_N 10.
Definition ESC : ascii := ascii_of_N 27.
Definition dquote : ascii := ascii_of_N 34.

(** [.replace(/\r?\n/g, '<br>')] *)
Fixpoint replace_newlines (s : string) : string :=
  match s with
  | EmptyString => ""
  | String c rest =>
      if Ascii.eqb c LF then "<br>" ++ replace_newlines rest
      else if Ascii.eqb c CR then
        match rest with
        | String d rest' =>
            if Ascii.eqb d LF then "<br>" ++ replace_newlines rest'
            else String c (replace_newlines rest)
        | EmptyString => String c ""
        end
      else String c (replace_newlines rest)
  end.

Definition is_param_char (c : ascii) : bool :=
  Scan.is_digit c || Ascii.eqb c ";".

(** A match of the colour-code pattern (ESC, an opening bracket, any run of
    digits and semicolons, then m) at the head of [s]: the captured run. *)
Definition ansi_match (s : string) : option string :=
  match s with
  | String e (String b rest) =>
      if Ascii.eqb e ESC && Ascii.eqb b "[" then
        match Scan.drop_while is_param_char rest with
        | String m _ =>
            if Ascii.eqb m "m" then Some (Scan.take_while is_param_char rest)
            else None
        | EmptyString => None
        end
      else None
  | _ => None
  end.

Section ProcessAnsi.

(** [String(Number(d))] for a string of digits [d] of value [n]: the text a
    template literal prints for a numeric parameter. *)
Variable number_text : N -> string.

(** [params[i] || d] *)
Definition param_or (params : list N) (i : nat) (d : N) : string :=
  match nth_error params i with
  | Some n => if N.eqb n 0 then number_text d else number_text n
  | None => number_text d
  end.

(** The replacement callback, on the capture [p1]. *)
Definition ansi_span (p1 : string) : string :=
  let params := map Scan.number (Str.split_on ";" p1) in
  match nth_error params 0 with
  | Some 0%N => "</span>"
  | Some 38%N =>
      match nth_error params 1 with
      | Some 5%N =>
          "<span style=" ++ String dquote "color: var(--ansi-"
            ++ param_or params 2 7 ++ ");" ++ String dquote ">"
      | Some 2%N =>
          "<span style=" ++ String dquote "color: rgb("
            ++ param_or params 2 255 ++ ", " ++ param_or params 3 255
            ++ ", " ++ param_or params 4 255 ++ ");" ++ String dquote ">"
      | _ => "<span>"
      end
  | _ => "<span>"
  end.

(** The global replacement of every colour code by the callback's text. *)
Fixpoint replace_ansi (skip : nat) (s : string) : string :=
  match s with
  | EmptyString => ""
  | String c rest =>
      match skip with
      | S k => replace_ansi k rest
      | O =>
          match ansi_match s with
          | Some p1 => ansi_span p1 ++ replace_ansi (String.length p1 + 2) rest
          | None => String c (replace_ansi 0 rest)
          end
      end
  end.

(** The loop [for (i = 0; i < n; i++) processed += '</span>']. *)
Fixpoint append_closers (n : nat) (processed : string) : string :=
  match n with
  | O => processed
  | S k => append_closers k (processed ++ "</span>")
  end.

Definition processAnsiOutput (ansi : string) : string :=
  let processed := replace_ansi 0 (replace_newlines ansi) in
  let openTags := Scan.count_matches "<span" processed in
  let closeTags := Scan.count_matches "</span>" processed in
  append_closers (openTags - closeTags) processed.

End ProcessAnsi.

(** Decimal text, which is [String(n)] for every [n] below [2^53]. *)
Definition decimal_text (n : N) : string := Text.digits n.

End Renderer.

(* ------------------------------------------------------------------------- *)
(** ** The main process: [main.js] *)

Module Main.

Import Js.

(** *** [processCache]: a [Map] from key to result, in insertion order *)

Definition Cache : Type := list (string * string).

Fixpoint cache_get (c : Cache) (k : string) : option string :=
  match c with
  | [] => None
  | (k', v) :: rest => if String.eqb k' k then Some v else cache_get rest k
  end.

(** [Map.prototype.has] *)
Definition cache_has (c : Cache) (k : string) : bool :=
  match cache_get c k with Some _ => true | None => false end.

(** [Map.prototype.set]: a present key keeps its place, a new one goes last. *)
Fixpoint cache_set (c : Cache) (k v : string) : Cache :=
  match c with
  | [] => [(k, v)]
  | (k', v') :: rest =>
      if String.eqb k' k then (k', v) :: rest else (k', v') :: cache_set rest k v
  end.

(** [Map.prototype.delete] *)
Fixpoint cache_delete (c : Cache) (k : string) : Cache :=
  match c with
  | [] => []
  | (k', v') :: rest =>
      if String.eqb k' k then rest else (k', v') :: cache_delete rest k
  end.

Definition cache_keys (c : Cache) : list string := map fst c.

(** No key occurs twice. *)
Fixpoint distinct (keys : list string) : bool :=
  match keys with
  | [] => true
  | k :: rest => negb (existsb (String.eqb k) rest) && distinct rest
  end.

(** The size limit of the close handler:
    [if (size > 10) for (i = 0; i < keys.length - 10; i++) delete(keys[i])]. *)
Definition limit_cache (c : Cache) : Cache :=
  if Nat.ltb 10 (List.length c)
  then fold_left cache_delete (firstn (List.length c - 10) (cache_keys c)) c
  else c.

(** What a finished conversion does to the cache: [set], then the limit. *)
Definition store_result (c : Cache) (k v : string) : Cache :=
  limit_cache (cache_set c k v).

(** *** The settings store and the state of the process *)

Record Store : Type := mkStore {
  lastSettings : Obj;
  darkMode : bool;
  optimizeMemory : bool;
  systemPythonPath : option string
}.

Record State : Type := mkState {
  processCache : Cache;
  store : Store;
  activeProcesses : list (option N)      (* a pid is [undefined] when spawn failed *)
}.

Definition with_cache (s : State) (c : Cache) : State :=
  mkState c (store s) (activeProcesses s).

Definition with_store (s : State) (st : Store) : State :=
  mkState (processCache s) st (activeProcesses s).

Definition with_processes (s : State) (ps : list (option N)) : State :=
  mkState (processCache s) (store s) ps.

Definition set_lastSettings (st : Store) (o : Obj) : Store :=
  mkStore o (darkMode st) (optimizeMemory st) (systemPythonPath st).

Definition pid_eqb (a b : option N) : bool :=
  match a, b with
  | Some x, Some y => N.eqb x y
  | None, None => true
  | _, _ => false
  end.

(** [Set.prototype.add] and [Set.prototype.delete] on [activeProcesses]. *)
Definition add_process (ps : list (option N)) (p : option N) : list (option N) :=
  if existsb (pid_eqb p) ps then ps else (ps ++ [p])%list.

Definition delete_process (ps : list (option N)) (p : option N) : list (option N) :=
  filter (fun q => negb (pid_eqb p q)) ps.

(** *** What the process sees of the outside *)

(** Values produced by [JSON.parse]. *)
#[warnings="-register-all"]
Inductive Json : Type :=
| JNull
| JBool (b : bool)
| JNum (n : Num)
| JStr (s : string)
| JArr (items : list Json)
| JObj (members : list (string * Json)).

(** [fs.readFileSync(outputFile)] once the child has closed. *)
Inductive ReadResult : Type :=
| ReadOk (content : string)
| ReadError (message : string).

(** The run of a spawned child: either the ['error'] event, or the ['close']
    event with the exit code ([None] when killed by a signal), what was
    written to the standard streams, and what the output file then holds. *)
Inductive Child : Type :=
| SpawnError (message : string)
| Closed (pid : N) (code : option Z) (stdout stderr : string)
         (output : ReadResult).

Record World : Type := mkWorld {
  bridgeScript : string;        (* path.join(__dirname, 'python_bridge.py') *)
  projectRoot : string;
  tmpDir : string;              (* the directory of temporary output files *)
  existsSync : string -> bool;
  now : N;                      (* Date.now() *)
  spawn : string -> list Val -> Child;
  JSON_parse_trimmed : string -> option Json   (* JSON.parse(s.trim()); None = throws *)
}.

(** The settlement of the promise an IPC handler returns. *)
Inductive Promise (A : Type) : Type :=
| Resolved (value : A)
| Rejected (message : string)
| Unsettled.       (* an exception escaped the async executor *)

Arguments Resolved {A} value.
Arguments Rejected {A} message.
Arguments Unsettled {A}.

(** *** ['process-image'] *)

Definition getCacheKey (imagePath : string) (settings : Obj) : string :=
  imagePath ++ ":" ++ Text.stringify settings.

Definition pythonPath (s : State) : string :=
  match systemPythonPath (store s) with
  | Some p => p
  | None => "python"
  end.

Definition outputFile (w : World) : string :=
  tmpDir w ++ "/output-" ++ Text.digits (now w) ++ ".txt".

Definition bind {A B : Type} (x : option A) (f : A -> option B) : option B :=
  match x with
  | Some a => f a
  | None => None
  end.

Notation "x <- e ;; k" := (bind e (fun x => k))
  (at level 61, e at next level, right associativity).

(** The arguments array; [None] when a [.toString()] receiver is
    [undefined] or [null]. *)
Definition build_args (w : World) (s : State) (imagePath : string)
                      (settings : Obj) : option (list Val) :=
  let num k := Text.toString_method (get settings k) in
  width <- num "outputWidth" ;;
  edge <- num "edgeThreshold" ;;
  aspect <- num "aspectRatioCorrection" ;;
  blur <- num "blur" ;;
  sharpen <- num "sharpen" ;;
  brightness <- num "brightness" ;;
  saturation <- num "saturation" ;;
  contrast <- num "contrast" ;;
  detail <- num "detailLevel" ;;
  gamma <- num "gamma" ;;
  Some ([ VStr (bridgeScript w); VStr "generate"; VStr imagePath;
          VStr "--output"; VStr (outputFile w);
          VStr "--width"; VStr width;
          VStr "--color"; get settings "colorMode";
          VStr "--preset"; get settings "preset";
          VStr "--edge-threshold"; VStr edge;
          VStr "--aspect-ratio"; VStr aspect;
          VStr "--blur"; VStr blur;
          VStr "--sharpen"; VStr sharpen;
          VStr "--brightness"; VStr brightness;
          VStr "--saturation"; VStr saturation;
          VStr "--contrast"; VStr contrast;
          VStr "--detail-level"; VStr detail;
          VStr "--gamma"; VStr gamma ]
        ++ (if optimizeMemory (store s)
            then [VStr "--optimize-for"; VStr "memory";
                  VStr "--max-image-size"; VStr "2000"]
            else [])
        ++ (if truthy (get settings "dithering") then [VStr "--dither"] else [])
        ++ (if truthy (get settings "edgeDetect") then [VStr "--edges"] else [])
        ++ (if truthy (get settings "enhanceContrast") then [] else [VStr "--no-enhance"])
        ++ (if truthy (get settings "invert") then [VStr "--invert"] else []))%list.

(** A conversion whose child is running: what the event handlers captured. *)
Record Running : Type := mkRunning {
  run_key : string;
  run_pid : option N
}.

Definition child_pid (c : Child) : option N :=
  match c with
  | SpawnError _ => None
  | Closed pid _ _ _ _ => Some pid
  end.

(** The handler up to the point where it returns to the event loop. *)
Inductive Begin : Type :=
| Settled (p : Promise string) (s : State)
| Started (child : Child) (r : Running) (s : State).

Definition process_image_begin (w : World) (s : State) (imagePath : string)
                               (settings : Obj) : Begin :=
  let cacheKey := getCacheKey imagePath settings in
  match cache_get (processCache s) cacheKey with   (* has(key), then get(key) *)
  | Some cached => Settled (Resolved cached) s
  | None =>
      if negb (existsSync w (bridgeScript w)) then
        Settled (Rejected ("Bridge script not found: " ++ bridgeScript w)) s
      else if negb (existsSync w imagePath) then
        Settled (Rejected ("Image file not found: " ++ imagePath)) s
      else
        match build_args w s imagePath settings with
        | None => Settled Unsettled s
        | Some args =>
            let s1 := with_store s (set_lastSettings (store s) settings) in
            let child := spawn w (pythonPath s) args in
            let pid := child_pid child in
            Started child (mkRunning cacheKey pid)
                    (with_processes s1 (add_process (activeProcesses s1) pid))
        end
  end.

(** [pythonProcess.on('close', ...)] *)
Definition on_close (r : Running) (code : option Z) (stderr : string)
                    (output : ReadResult) (s : State) : Promise string * State :=
  let s1 := with_processes s (delete_process (activeProcesses s) (run_pid r)) in
  match code with
  | Some 0%Z =>
      match output with
      | ReadOk result =>
          (Resolved result,
           with_cache s1 (store_result (processCache s1) (run_key r) result))
      | ReadError message =>
          (Rejected ("Failed to read output file: " ++ message), s1)
      end
  | _ =>
      (Rejected ("Python error: "
                 ++ (if String.eqb stderr "" then "Unknown error" else stderr)),
       s1)
  end.

(** [pythonProcess.on('error', ...)] *)
Definition on_error (r : Running) (message : string) (s : State)
  : Promise string * State :=
  (Rejected ("Failed to start Python process: " ++ message),
   with_processes s (delete_process (activeProcesses s) (run_pid r))).

(** One conversion from the request to the settlement of its promise. *)
Definition process_image (w : World) (s : State) (imagePath : string)
                         (settings : Obj) : Promise string * State :=
  match process_image_begin w s imagePath settings with
  | Settled p s' => (p, s')
  | Started child r s' =>
      match child with
      | SpawnError message => on_error r message s'
      | Closed _ code _ stderr output => on_close r code stderr output s'
      end
  end.

(** The child closed with exit code 0 and left a readable output file. *)
Definition child_succeeded (c : Child) : bool :=
  match c with
  | Closed _ (Some 0%Z) _ _ (ReadOk _) => true
  | _ => false
  end.

(** How the messages of a rejected conversion begin. *)
Definition failure_prefixes : list string :=
  [ "Bridge script not found: ";
    "Image file not found: ";
    "Python error: ";
    "Failed to read output file: ";
    "Failed to start Python process: " ].

Definition names_failure (message : string) : bool :=
  existsb (fun p => Str.starts_with p message) failure_prefixes.

(** *** ['get-character-presets'] *)

Definition get_character_presets (w : World) (s : State)
  : Promise Json * State :=
  if negb (existsSync w (bridgeScript w)) then
    (Resolved (JArr []), s)     (* empty array instead of rejecting *)
  else
    match spawn w (pythonPath s) [VStr (bridgeScript w); VStr "get_presets"] with
    | SpawnError _ => (Resolved (JArr []), s)
    | Closed _ (Some 0%Z) stdout _ _ =>
        match JSON_parse_trimmed w stdout with
        | Some result => (Resolved result, s)
        | None => (Resolved (JArr []), s)
        end
    | Closed _ _ _ _ _ => (Resolved (JArr []), s)
    end.

(** *** ['suggest-optimal-settings'] *)

(** [{ success: true, settings }] or [{ success: false, error }]. *)
Inductive Suggestion : Type :=
| Suggested (settings : Json)
| NotSuggested (error : string).

(** The settings read off the child's plain-text report when its output is
    not JSON. *)
Definition fallback_settings (output : string) : list (string * Json) :=
  let enabled o := match o with
                   | Some t => Some (JBool (String.eqb t "enabled"))
                   | None => None
                   end in
  let field k (o : option Json) := match o with
                                   | Some v => [(k, v)]
                                   | None => []
                                   end in
  (field "outputWidth"
     (option_map (fun d => JNum (Fin (Z.of_N (Scan.number d)) 0))
        (Scan.match_capture "Width: " Scan.is_digit output))
   ++ field "colorMode"
        (option_map JStr (Scan.match_capture "Color mode: " Scan.is_word output))
   ++ field "preset"
        (option_map JStr
           (Scan.match_capture "Character preset: " Scan.is_word output))
   ++ field "dithering"
        (enabled (Scan.match_either "Dithering: " "enabled" "disabled" output))
   ++ field "edgeDetect"
        (enabled (Scan.match_either "Edge detection: " "enabled" "disabled" output))
  )%list.

Definition suggest_optimal_settings (w : World) (s : State) (imagePath : string)
  : Promise Suggestion * State :=
  if negb (existsSync w imagePath) then
    (Resolved (NotSuggested "File not found"), s)
  else
    match spawn w (pythonPath s)
                [VStr (bridgeScript w); VStr "suggest_settings";
                 VStr imagePath; VStr "100"] with
    | SpawnError message => (Resolved (NotSuggested message), s)
    | Closed _ (Some 0%Z) stdout stderr _ =>
        match JSON_parse_trimmed w stdout with
        | Some result => (Resolved (Suggested result), s)
        | None =>
            let settings := fallback_settings (stdout ++ stderr) in
            if Nat.ltb 0 (List.length settings)
            then (Resolved (Suggested (JObj settings)), s)
            else (Resolved (NotSuggested "Could not parse settings"), s)
        end
    | Closed _ _ _ stderr _ =>
        (Resolved (NotSuggested
                     (if String.eqb stderr "" then "Unknown error" else stderr)),
         s)
    end.

(** *** The handlers that only touch the cache or the store *)

Definition clear_cache (s : State) : bool * State := (true, with_cache s []).

Definition save_settings (s : State) (settings : Obj) : bool * State :=
  (true, with_store s (set_lastSettings (store s) settings)).

Definition toggle_dark_mode (s : State) (isDark : bool) : bool * State :=
  (isDark,
   with_store s (mkStore (lastSettings (store s)) isDark
                         (optimizeMemory (store s))
                         (systemPythonPath (store s)))).

Definition toggle_memory_optimization (s : State) (isOptimized : bool)
  : bool * State :=
  (isOptimized,
   with_store s (mkStore (lastSettings (store s)) (darkMode (store s))
                         isOptimized (systemPythonPath (store s)))).

(** *** The process as a whole *)

(** The schema default of [lastSettings]. *)
Definition default_lastSettings : Obj :=
  [ ("outputWidth", VNum (Fin 100 0));
    ("colorMode", VStr "ansi");
    ("dithering", VBool false);
    ("edgeDetect", VBool false);
    ("preset", VStr "classic");
    ("enhanceContrast", VBool true);
    ("aspectRatioCorrection", VNum (Fin 55 2));
    ("invert", VBool false);
    ("edgeThreshold", VNum (Fin 75 0));
    ("blur", VNum (Fin 0 0));
    ("sharpen", VNum (Fin 0 0));
    ("brightness", VNum (Fin 1 0));
    ("saturation", VNum (Fin 1 0));
    ("contrast", VNum (Fin 1 0));
    ("detailLevel", VNum (Fin 1 0));
    ("gamma", VNum (Fin 1 0)) ].

Definition initial_state : State :=
  mkState [] (mkStore default_lastSettings true true None) [].

Inductive Request : Type :=
| ProcessImage (w : World) (imagePath : string) (settings : Obj)
| GetCharacterPresets (w : World)
| SuggestOptimalSettings (w : World) (imagePath : string)
| ClearCache
| SaveSettings (settings : Obj)
| ToggleDarkMode (isDark : bool)
| ToggleMemoryOptimization (isOptimized : bool).

(** The state after a request has been served. *)
Definition handle (s : State) (r : Request) : State :=
  match r with
  | ProcessImage w imagePath settings => snd (process_image w s imagePath settings)
  | GetCharacterPresets w => snd (get_character_presets w s)
  | SuggestOptimalSettings w imagePath => snd (suggest_optimal_settings w s imagePath)
  | ClearCache => snd (clear_cache s)
  | SaveSettings settings => snd (save_settings s settings)
  | ToggleDarkMode b => snd (toggle_dark_mode s b)
  | ToggleMemoryOptimization b => snd (toggle_memory_optimization s b)
  end.

Definition run (requests : list Request) : State :=
  fold_left handle requests initial_state.

End Main.

(* ------------------------------------------------------------------------- *)
(** ** The conversion engine, as far as the shell depends on it *)

Module Engine.

Import Js Main.

(** The value given for an option among the [flag value] pairs. *)
Fixpoint option_value (flag : string) (opts : list Val) : option Val :=
  match opts with
  | VStr f :: v :: rest =>
      if String.eqb f flag then Some v else option_value flag rest
  | _ => None
  end.

(** A decimal numeral of a positive integer. *)
Fixpoint all_digits (s : string) : bool :=
  match s with
  | EmptyString => true
  | String c rest => Scan.is_digit c && all_digits rest
  end.

Fixpoint has_nonzero (s : string) : bool :=
  match s with
  | EmptyString => false
  | String c rest => negb (Ascii.eqb c "0") || has_nonzero rest
  end.

Definition positive_integer (s : string) : bool :=
  all_digits s && has_nonzero s.

Definition invalid_config_message : string :=
  "InvalidConfigError: outputWidth must be a positive integer".

(** Modelled from the spec: the engine's validation of the output width.
    The engine itself ([python_bridge.py] and the [image2textart_generator]
    package it drives) is not among the sources.  The spec makes
    [outputWidth] a positive integer, a structural precondition that is
    never clamped, and requires a conversion with [outputWidth = 0] to fail
    with [InvalidConfigError].  The width is the value of [--width] among
    the options that follow [script generate image]. *)
Definition validate_config (args : list Val) : option string :=
  match option_value "--width" (skipn 3 args) with
  | Some (VStr width) =>
      if positive_integer width then None else Some invalid_config_message
  | _ => Some invalid_config_message
  end.

(** The command line asks for a conversion: [script generate ...]. *)
Definition is_generate (args : list Val) : bool :=
  match args with
  | _ :: VStr command :: _ => String.eqb command "generate"
  | _ => false
  end.

(** Modelled from the spec: a world whose [generate] command is that
    engine.  A conversion with an invalid configuration never closes with
    exit code 0, and its error stream carries the [InvalidConfigError]. *)
Definition runs_engine (w : World) : Prop :=
  forall cmd args message,
    is_generate args = true ->
    validate_config args = Some message ->
    match spawn w cmd args with
    | SpawnError _ => True
    | Closed _ code _ stderr _ => code <> Some 0%Z /\ stderr = message
    end.

(** The settings objects of the renderer start with [outputWidth]: the
    constructor's literal does, and spreading keeps the first property. *)
Definition renderer_shaped (settings : Obj) : bool :=
  match settings with
  | (k, _) :: _ => String.eqb k "outputWidth"
  | [] => false
  end.

(** A conversion request served by the engine on behalf of the renderer. *)
Definition engine_request (r : Request) : Prop :=
  match r with
  | ProcessImage w _ settings => runs_engine w /\ renderer_shaped settings = true
  | _ => True
  end.

(** The scanner for the three characters that open the JSON text of a
    renderer's settings: a brace, a quote, the letter o. *)
Inductive Seen : Type := Nothing | Brace | BraceQuote | Found.

Definition see (q : Seen) (c : ascii) : Seen :=
  match q with
  | Found => Found
  | _ =>
      if Ascii.eqb c "{" then Brace
      else match q with
           | Brace => if Ascii.eqb c Text.dquote then BraceQuote else Nothing
           | BraceQuote => if Ascii.eqb c "o" then Found else Nothing
           | _ => Nothing
           end
  end.

Fixpoint scan (q : Seen) (s : string) : Seen :=
  match s with
  | EmptyString => q
  | String c rest => scan (see q c) rest
  end.

(** The scanner has not begun a match beyond the brace. *)
Definition calm (q : Seen) : Prop := q = Nothing \/ q = Brace.

(** The three characters the scanner looks for. *)
Definition opening : string := String "{" (String Text.dquote "o").

(** A cache entry made by a conversion the engine accepted: its key is the
    key of a renderer's settings whose width is a positive integer. *)
Definition accepted_entry (kv : string * string) : Prop :=
  exists imagePath settings width,
    fst kv = getCacheKey imagePath settings
    /\ renderer_shaped settings = true
    /\ Text.toString_method (get settings "outputWidth") = Some width
    /\ positive_integer width = true.

End Engine.


(* ------------------------------------------------------------------------- *)
(** ** Sample worlds and requests *)

Module Sample.

Import Js Main.

(** Nothing is installed: no file exists and nothing can be spawned. *)
Definition bare_world : World :=
  mkWorld "/app/python_bridge.py" "/app/.." "/tmp/ansi-ascii-art-generator"
          (fun _ => false) 1700000000000
          (fun _ _ => SpawnError "spawn python ENOENT")
          (fun _ => None).

(** Every file exists and every child closes with the given result. *)
Definition working_world (result : string) : World :=
  mkWorld "/app/python_bridge.py" "/app/.." "/tmp/ansi-ascii-art-generator"
          (fun _ => true) 1700000000000
          (fun _ _ => Closed 4242 (Some 0%Z) "" "" (ReadOk result))
          (fun _ => None).

(** Every file exists; the child is the engine with its width check and
    draws the same picture for every valid configuration. *)
Definition engine_world : World :=
  mkWorld "/app/python_bridge.py" "/app/.." "/tmp/ansi-ascii-art-generator"
          (fun _ => true) 1700000000000
          (fun _ args =>
             if Engine.is_generate args then
               match Engine.validate_config args with
               | Some message =>
                   Closed 4242 (Some 1%Z) "" message (ReadError "ENOENT")
               | None => Closed 4242 (Some 0%Z) "" "" (ReadOk "@#")
               end
             else Closed 4242 (Some 0%Z) "[]" "" (ReadError "ENOENT"))
          (fun _ => None).

Definition zero_width_settings : Obj :=
  set Renderer.default_settings "outputWidth" (VNum (Fin 0 0)).

Definition custom_chars_settings : Obj :=
  set Renderer.default_settings "customChars" (VStr "@#").

(** The process after one conversion of [cat.png] under the default
    settings. *)
Definition after_one_conversion : State :=
  run [ProcessImage engine_world "cat.png" Renderer.default_settings].

(** Eleven results under eleven keys. *)
Definition eleven_results : list (string * string) :=
  [ ("k00", "r00"); ("k01", "r01"); ("k02", "r02"); ("k03", "r03");
    ("k04", "r04"); ("k05", "r05"); ("k06", "r06"); ("k07", "r07");
    ("k08", "r08"); ("k09", "r09"); ("k10", "r10") ].

End Sample.

(* ------------------------------------------------------------------------- *)
(** ** The main process: finding the interpreter, reading the settings *)

Module Interpreter.

Import Js Main.

(** What the callback of [exec] receives. *)
Record ExecResult : Type := mkExec {
  exec_error : bool;            (* the error argument is not null *)
  exec_stdout : string;
  exec_stderr : string
}.

Record Host : Type := mkHost {
  exec : string -> ExecResult;
  platform : string
}.

(** [s.includes(needle)] *)
Fixpoint includes (needle s : string) : bool :=
  match s with
  | EmptyString => Str.starts_with needle s
  | String _ rest => Str.starts_with needle s || includes needle rest
  end.

Definition testPythonPath (h : Host) (path : string) : bool :=
  let r := exec h (path ++ " --version") in
  if exec_error r then false
  else includes "Python 3"
         (if String.eqb (exec_stdout r) "" then exec_stderr r else exec_stdout r).

Definition pythonCommands : list string := ["python"; "python3"; "py"].

Definition winPaths : list string :=
  [ "C:\Python311\python.exe"; "C:\Python310\python.exe";
    "C:\Python39\python.exe"; "C:\Python38\python.exe";
    "C:\Program Files\Python311\python.exe";
    "C:\Program Files\Python310\python.exe";
    "C:\Program Files\Python39\python.exe";
    "C:\Program Files\Python38\python.exe" ].

Definition unixPaths : list string :=
  [ "/usr/bin/python3"; "/usr/local/bin/python3"; "/opt/python3/bin/python3" ].

(** [store.set('systemPythonPath', path)] *)
Definition set_systemPythonPath (s : State) (path : string) : State :=
  with_store s (mkStore (lastSettings (store s)) (darkMode (store s))
                        (optimizeMemory (store s)) (Some path)).

(** [detectPythonPath()]: the path it returns and the state it leaves. *)
Definition detectPythonPath (h : Host) (w : World) (s : State)
  : string * State :=
  let search :=
    match find (testPythonPath h) pythonCommands with
    | Some cmd => (cmd, set_systemPythonPath s cmd)
    | None =>
        let paths := if String.eqb (platform h) "win32"
                     then winPaths else unixPaths in
        match find (fun p => existsSync w p && testPythonPath h p) paths with
        | Some p => (p, set_systemPythonPath s p)
        | None => ("python", s)
        end
    end in
  match systemPythonPath (store s) with
  | Some storedPath =>
      if negb (String.eqb storedPath "") && testPythonPath h storedPath
      then (storedPath, s)
      else search
  | None => search
  end.

(** ['get-settings'] *)
Record SettingsReply : Type := mkReply {
  reply_lastSettings : Obj;
  reply_darkMode : bool;
  reply_optimizeMemory : bool
}.

Definition get_settings (s : State) : SettingsReply :=
  mkReply (lastSettings (store s)) (darkMode (store s))
          (optimizeMemory (store s)).

(** The ten settings whose [toString] the conversion handler calls. *)
Definition numeric_keys : list string :=
  [ "outputWidth"; "edgeThreshold"; "aspectRatioCorrection"; "blur";
    "sharpen"; "brightness"; "saturation"; "contrast"; "detailLevel";
    "gamma" ].

(** Every setting the conversion handler reads. *)
Definition processing_keys : list string :=
  (numeric_keys
     ++ ["colorMode"; "preset"; "dithering"; "edgeDetect";
         "enhanceContrast"; "invert"])%list.

(** [undefined] or [null] *)
Definition nullish (v : Val) : bool :=
  match v with
  | VUndefined | VNull => true
  | _ => false
  end.

(** The conversion handler gets as far as spawning a child: the request
    misses the cache, the bridge script and the image exist, and no numeric
    setting is missing. *)
Definition starts_child (w : World) (s : State) (imagePath : string)
                        (settings : Obj) : bool :=
  negb (cache_has (processCache s) (getCacheKey imagePath settings))
  && existsSync w (bridgeScript w)
  && existsSync w imagePath
  && negb (existsb (fun k => nullish (get settings k)) numeric_keys).

End Interpreter.

(* ------------------------------------------------------------------------- *)
(** ** The renderer: the page around [AsciiArtGenerator] *)

Module Page.

Import Js Renderer.

(** The application object as the constructor leaves it. *)
Definition initial_app : App :=
  mkApp default_settings None None false 100 [] None false.

Definition keys (o : Obj) : list string := map fst o.



(** [loadSettings()], on the reply to ['get-settings']: the saved settings
    are laid over the current ones.  (The theme classes of the page are not
    part of [App].) *)
Definition loadSettings (app : App) (reply : Interpreter.SettingsReply) : App :=
  with_settings app
    (spread (spread [] (settings app)) (Interpreter.reply_lastSettings reply)).

(** What the output area shows. *)
Inductive Content : Type :=
| Blank
| Text (text : string)          (* set through textContent *)
| Html (markup : string).       (* set through innerHTML *)

Record Area : Type := mkArea {
  area_shown : bool;            (* display: block, the placeholder hidden *)
  area_content : Content;
  area_color : Val;             (* style.color *)
  area_fontFamily : Val;
  area_fontSize : string;
  area_background : Val;
  area_fitted : bool            (* scaled to fit by applyAutoFit (the scale
                                   itself depends on the layout) *)
}.

Record Page : Type := mkPage {
  app : App;
  container : list string;      (* class list of .output-container *)
  area : Area;
  save_disabled : bool;
  copy_disabled : bool
}.

(** [classList.add], [classList.remove], [classList.toggle(c, force)]. *)
Definition class_add (cls : list string) (c : string) : list string :=
  if existsb (String.eqb c) cls then cls else (cls ++ [c])%list.

Definition class_remove (cls : list string) (c : string) : list string :=
  filter (fun x => negb (String.eqb c x)) cls.

Definition class_toggle (cls : list string) (c : string) (force : Val)
  : list string :=
  match force with
  | VUndefined =>
      if existsb (String.eqb c) cls then class_remove cls c else class_add cls c
  | _ => if truthy force then class_add cls c else class_remove cls c
  end.

Definition with_app (pg : Page) (a : App) : Page :=
  mkPage a (container pg) (area pg) (save_disabled pg) (copy_disabled pg).

Definition with_zoomLevel (a : App) (z : N) : App :=
  mkApp (settings a) (selectedImagePath a) (asciiOutput a) (isProcessing a)
        z (controls a) (status a) (loading a).

Definition with_asciiOutput (a : App) (out : option string) : App :=
  mkApp (settings a) (selectedImagePath a) out (isProcessing a)
        (zoomLevel a) (controls a) (status a) (loading a).

Definition with_isProcessing (a : App) (b : bool) : App :=
  mkApp (settings a) (selectedImagePath a) (asciiOutput a) b
        (zoomLevel a) (controls a) (status a) (loading a).

(** [if (this.asciiOutput)]: neither [null] nor the empty string. *)
Definition has_output (a : App) : bool :=
  match asciiOutput a with
  | Some out => negb (String.eqb out "")
  | None => false
  end.

(** [applyAutoFit()], once its timer has fired. *)
Definition applyAutoFit (pg : Page) : Page :=
  if has_output (app pg) then
    let ar := area pg in
    mkPage (app pg) (container pg)
           (mkArea (area_shown ar) (area_content ar) (area_color ar)
                   (area_fontFamily ar) (area_fontSize ar)
                   (area_background ar) true)
           (save_disabled pg) (copy_disabled pg)
  else pg.

(** *** Zoom *)

Definition levels : list N := [50; 75; 100; 125; 150; 200]%N.

(** [l.indexOf(x)], -1 when absent. *)
Fixpoint indexOf (x : N) (l : list N) : Z :=
  match l with
  | [] => (-1)%Z
  | y :: rest =>
      if N.eqb y x then 0%Z
      else let i := indexOf x rest in
           if Z.ltb i 0 then (-1)%Z else (i + 1)%Z
  end.

Definition zoom_classes : list string :=
  ["zoom-50"; "zoom-75"; "zoom-100"; "zoom-125"; "zoom-150"; "zoom-200"].

Definition applyZoom (pg : Page) : Page :=
  let cleared := fold_left class_remove zoom_classes (container pg) in
  let pg1 :=
    mkPage (app pg)
           (class_add cleared ("zoom-" ++ Text.digits (zoomLevel (app pg))))
           (area pg) (save_disabled pg) (copy_disabled pg) in
  if truthy (get (settings (app pg)) "autoFit") then applyAutoFit pg1 else pg1.

Definition zoomIn (pg : Page) : Page :=
  let currentIndex := indexOf (zoomLevel (app pg)) levels in
  if Z.ltb currentIndex (Z.of_nat (List.length levels) - 1) then
    applyZoom
      (with_app pg
         (with_zoomLevel (app pg)
            (nth (Z.to_nat (currentIndex + 1)) levels 0%N)))
  else pg.

Definition zoomOut (pg : Page) : Page :=
  let currentIndex := indexOf (zoomLevel (app pg)) levels in
  if Z.ltb 0 currentIndex then
    applyZoom
      (with_app pg
         (with_zoomLevel (app pg)
            (nth (Z.to_nat (currentIndex - 1)) levels 0%N)))
  else pg.

Definition resetZoom (pg : Page) : Page :=
  applyZoom (with_app pg (with_zoomLevel (app pg) 100)).

Inductive ZoomButton : Type := ZoomInButton | ZoomOutButton | ZoomResetButton.

Definition press (pg : Page) (b : ZoomButton) : Page :=
  match b with
  | ZoomInButton => zoomIn pg
  | ZoomOutButton => zoomOut pg
  | ZoomResetButton => resetZoom pg
  end.

End Page.

(* ------------------------------------------------------------------------- *)
(** ** The renderer: showing and generating the output *)

Module Session.

Import Js Renderer Page.

Section Display.

(** The text printed for a number in a colour code, as for
    [processAnsiOutput]. *)
Variable number_text : N -> string.

(** A class token that [classList.add] accepts: it is not empty and holds
    no ASCII white space (tab, line feed, form feed, carriage return,
    space); on any other token [classList.add] throws. *)
Definition is_space (c : ascii) : bool :=
  let n := N_of_ascii c in
  N.eqb n 9 || N.eqb n 10 || N.eqb n 12 || N.eqb n 13 || N.eqb n 32.

Fixpoint has_space (s : string) : bool :=
  match s with
  | EmptyString => false
  | String c rest => is_space c || has_space rest
  end.

Definition token_ok (c : string) : bool :=
  negb (String.eqb c "") && negb (has_space c).

(** How a call ends: it returns, or an exception leaves it. *)
Inductive Outcome : Type :=
| Returned (pg : Page)
| Thrown (pg : Page).

Definition page_of (o : Outcome) : Page :=
  match o with
  | Returned pg => pg
  | Thrown pg => pg
  end.

(** [updateOutputDisplay()] *)
Definition updateOutputDisplay (pg : Page) : Outcome :=
  if has_output (app pg) then
    let out := match asciiOutput (app pg) with
               | Some o => o
               | None => ""
               end in
    let st := settings (app pg) in
    let mode := get st "colorMode" in
    let autoFit := get st "autoFit" in
    let old := area pg in
    let token := Text.to_string mode ++ "-mode" in
    if negb (token_ok token) then
      (* the area is shown and the class name reset; the rest is not reached *)
      Thrown
        (mkPage (app pg) ["output-container"]
                (mkArea true (area_content old) (area_color old)
                        (area_fontFamily old) (area_fontSize old)
                        (area_background old) (area_fitted old))
                (save_disabled pg) (copy_disabled pg))
    else
    let classes0 := class_add ["output-container"] token in
    let classes1 :=
      if truthy autoFit then class_add classes0 "auto-fit" else classes0 in
    let shown (c : Content) (color : Val) (fitted : bool) : Area :=
      mkArea true c color (get st "fontFamily")
             (Text.to_string (get st "fontSize") ++ "px")
             (get st "bgColor") fitted in
    let fitted := if truthy autoFit then true else false in
    let ar :=
      match mode with
      | VStr "grayscale" => shown (Text out) (get st "textColor") fitted
      | VStr "html" => shown (Html out) (area_color old) fitted
      | VStr "ansi" | VStr "truecolor" =>
          shown (Html (processAnsiOutput number_text out)) (area_color old)
                fitted
      | _ => shown (Text out) (VStr "#ffffff") fitted
      end in
    Returned
      (mkPage (app pg) (class_toggle classes1 "auto-fit" autoFit) ar
              (save_disabled pg) (copy_disabled pg))
  else Returned pg.

(** [generateAsciiArt()], the request served by the main process in
    world [w]. *)
Definition generateAsciiArt (w : Main.World) (pg : Page) (s : Main.State)
  : Page * Main.State :=
  let a := app pg in
  match selectedImagePath a with
  | None => (pg, s)
  | Some imagePath =>
      if String.eqb imagePath "" || isProcessing a then (pg, s)
      else
        let a1 := showLoading (with_isProcessing a true) true in
        let finally (p : Page) : Page :=
          with_app p (showLoading (with_isProcessing (app p) false) false) in
        let caught (p : Page) : Page :=
          with_app p (showStatus (app p) "Error generating ASCII art" "error") in
        match Main.process_image w s imagePath (processingSettings a1) with
        | (Main.Resolved out, s1) =>
            match
              updateOutputDisplay (with_app pg (with_asciiOutput a1 (Some out)))
            with
            | Returned pg1 =>
                let pg2 :=
                  mkPage (showStatus (app pg1)
                            "ASCII art generated successfully" "success")
                         (container pg1) (area pg1) false false in
                (finally pg2,
                 snd (Main.save_settings s1 (settings (app pg2))))
            | Thrown pg1 => (finally (caught pg1), s1)
            end
        | (Main.Rejected _, s1) => (finally (caught (with_app pg a1)), s1)
        | (Main.Unsettled, s1) => (with_app pg a1, s1)
        end
  end.

End Display.

(** *** The presets of [settings.js] *)

Definition PRESETS_colorful : Obj :=
  preset_object 120 "truecolor" true false "detailed" (Fin 5 1) 75
    (Fin 0 0) (Fin 15 1) (Fin 11 1) (Fin 15 1) (Fin 12 1) (Fin 1 0) (Fin 9 1).

Definition PRESETS_braille : Obj :=
  [ ("outputWidth", VNum (Fin 80 0));
    ("colorMode", VStr "braille");
    ("dithering", VBool true);
    ("edgeDetect", VBool true);
    ("preset", VStr "classic");
    ("enhanceContrast", VBool true);
    ("aspectRatioCorrection", VNum (Fin 4 1));
    ("invert", VBool false);
    ("edgeThreshold", VNum (Fin 60 0));
    ("blur", VNum (Fin 0 0));
    ("sharpen", VNum (Fin 2 0));
    ("brightness", VNum (Fin 11 1));
    ("contrast", VNum (Fin 14 1));
    ("saturation", VNum (Fin 1 0));
    ("detailLevel", VNum (Fin 1 0));
    ("gamma", VNum (Fin 1 0)) ].

Definition PRESETS_minimal : Obj :=
  preset_object 80 "grayscale" false false "minimal" (Fin 55 2) 75
    (Fin 5 1) (Fin 0 0) (Fin 1 0) (Fin 8 1) (Fin 11 1) (Fin 8 1) (Fin 1 0).

Definition PRESETS_html : Obj :=
  preset_object 120 "html" true false "detailed" (Fin 5 1) 75
    (Fin 0 0) (Fin 15 1) (Fin 1 0) (Fin 12 1) (Fin 12 1) (Fin 1 0) (Fin 1 0).

(** The object [PRESETS]: presets by name. *)
Definition Presets : Type := list (string * Obj).

Definition PRESETS : Presets :=
  [ ("photo", PRESETS_photo); ("lineart", PRESETS_lineart);
    ("colorful", PRESETS_colorful); ("highdetail", PRESETS_highdetail);
    ("braille", PRESETS_braille); ("minimal", PRESETS_minimal);
    ("html", PRESETS_html) ].

(** [presets[name]] and [presets[name] = preset], for names that are own
    properties of a plain object. *)
Fixpoint presets_get (ps : Presets) (name : string) : option Obj :=
  match ps with
  | [] => None
  | (n, p) :: rest => if String.eqb n name then Some p else presets_get rest name
  end.

Fixpoint presets_set (ps : Presets) (name : string) (p : Obj) : Presets :=
  match ps with
  | [] => [(name, p)]
  | (n, q) :: rest =>
      if String.eqb n name then (n, p) :: rest else (n, q) :: presets_set rest name p
  end.

(** The settings a saved preset records: [customPreset] of
    [saveCustomPreset]. *)
Definition saved_keys : list string :=
  [ "outputWidth"; "colorMode"; "dithering"; "edgeDetect"; "preset";
    "enhanceContrast"; "aspectRatioCorrection"; "invert"; "edgeThreshold";
    "blur"; "sharpen"; "brightness"; "saturation"; "contrast";
    "detailLevel"; "gamma" ].

Definition customPreset (st : Obj) : Obj :=
  map (fun k => (k, get st k)) saved_keys.

(** The page of [settings.js]: the application, the presets and the
    options of the preset dropdown. *)
Record PresetPage : Type := mkPresetPage {
  window_app : option App;
  presets : Presets;
  options : option (list (string * string))   (* value and label; None when
                                                 the dropdown is absent *)
}.

Section SavePreset.

(** [String.prototype.toLowerCase] *)
Variable toLowerCase : string -> string.

(** [saveCustomPreset()], on the answer to the prompt ([None] when it was
    cancelled). *)
Definition saveCustomPreset (pp : PresetPage) (answer : option string)
  : PresetPage :=
  match window_app pp, answer with
  | Some a, Some presetName =>
      if String.eqb presetName "" then pp
      else
        let name := toLowerCase presetName in
        mkPresetPage
          (Some (showStatus a
                   ("Saved preset " ++ String dquote (presetName ++ String dquote ""))
                   "success"))
          (presets_set (presets pp) name (customPreset (settings a)))
          (match options pp with
           | Some os =>
               Some (os ++ [(name, (presetName ++ " (Custom)")%string)])%list
           | None => None
           end)
  | _, _ => pp
  end.

End SavePreset.

(** The change handler of the preset dropdown. *)
Definition choosePreset (pp : PresetPage) (presetKey : string) : PresetPage :=
  if String.eqb presetKey "" then pp
  else match presets_get (presets pp) presetKey with
       | Some p =>
           mkPresetPage (applyPreset (window_app pp) (Some p))
                        (presets pp) (options pp)
       | None => pp
       end.



End Session.

(* ------------------------------------------------------------------------- *)
(** ** Sample pages *)

Module Scenes.

Import Js Renderer Page Session.

(** The application with [cat.png] selected. *)
Definition cat_app : App :=
  mkApp default_settings (Some "cat.png") None false 100 [] None false.

(** The page before any output: the placeholder is shown, Save and Copy
    are disabled. *)
Definition blank_area : Area :=
  mkArea false Blank VUndefined VUndefined "" VUndefined false.

Definition cat_page : Page :=
  mkPage cat_app ["output-container"] blank_area true true.

(** The same page with an output at hand. *)
Definition shown_page : Page :=
  mkPage (with_asciiOutput cat_app (Some "@#")) ["output-container"; "zoom-125"]
         blank_area false false.

(** Settings whose blur was stored as [null]. *)
Definition null_blur_settings : Obj := set default_settings "blur" VNull.

Definition null_blur_page : Page :=
  mkPage (with_settings cat_app null_blur_settings) ["output-container"]
         blank_area true true.

(** Settings that differ from the defaults in the font size only. *)
Definition large_font_settings : Obj :=
  set default_settings "fontSize" (VNum (Fin 20 0)).

(** A reply to ['get-settings'] that holds a saved width. *)
Definition narrow_reply : Interpreter.SettingsReply :=
  Interpreter.mkReply [("outputWidth", VNum (Fin 80 0))] false false.

(** The settings page with the built-in presets and two of its options. *)
Definition presets_page : PresetPage :=
  mkPresetPage (Some cat_app) PRESETS
               (Some [("", "Custom Settings"); ("photo", "Photo Optimized")]).

End Scenes.

(* ------------------------------------------------------------------------- *)
(** * Properties *)

(** ** Strings and objects *)

Module StrFacts.

Import Str.

Lemma append_nil_r (s : string) : s ++ "" = s.
Proof. induction s as [|c s IH]; simpl; [reflexivity | now rewrite IH]. Qed.

Lemma append_assoc (a b c : string) : (a ++ b) ++ c = a ++ (b ++ c).
Proof. induction a as [|x a IH]; simpl; [reflexivity | now rewrite IH]. Qed.

Lemma length_append (a b : string) :
  String.length (a ++ b) = String.length a + String.length b.
Proof. induction a as [|x a IH]; simpl; [reflexivity | now rewrite IH]. Qed.

Lemma append_inv_l (a b c : string) : a ++ b = a ++ c -> b = c.
Proof. induction a as [|x a IH]; simpl; intros H; [exact H | injection H; auto]. Qed.

Lemma append_inv_r (a b x : string) : a ++ x = b ++ x -> a = b.
Proof.
  revert b. induction a as [|c a IH]; intros [|d b] H; simpl in H.
  - reflexivity.
  - exfalso. apply (f_equal String.length) in H. simpl in H.
    rewrite length_append in H. lia.
  - exfalso. apply (f_equal String.length) in H. simpl in H.
    rewrite length_append in H. lia.
  - injection H as -> H. f_equal. now apply IH.
Qed.

Lemma starts_with_app (p s : string) : starts_with p (p ++ s) = true.
Proof.
  induction p as [|a p IH]; simpl; [reflexivity|].
  now rewrite Ascii.eqb_refl, IH.
Qed.

Lemma starts_with_length (p s : string) :
  starts_with p s = true -> String.length p <= String.length s.
Proof.
  revert s; induction p as [|a p IH]; intros [|b s]; simpl; try lia; try discriminate.
  intros H; apply andb_true_iff in H as [_ H]. apply IH in H. lia.
Qed.

End StrFacts.

Module JsFacts.

Import Js.

Lemma get_set_same (o : Obj) (k : string) (v : Val) : get (set o k v) k = v.
Proof.
  induction o as [|[k' v'] rest IH]; simpl.
  - now rewrite String.eqb_refl.
  - destruct (String.eqb k' k) eqn:E; simpl; rewrite E; auto.
Qed.

Lemma get_set_other (o : Obj) (k k' : string) (v : Val) :
  k <> k' -> get (set o k v) k' = get o k'.
Proof.
  intros Hne. induction o as [|[k0 v0] rest IH]; simpl.
  - apply String.eqb_neq in Hne. now rewrite Hne.
  - destruct (String.eqb k0 k) eqn:E; simpl.
    + apply String.eqb_eq in E; subst k0.
      apply String.eqb_neq in Hne. now rewrite Hne.
    + destruct (String.eqb k0 k'); auto.
Qed.

End JsFacts.

(* ------------------------------------------------------------------------- *)
(** ** The renderer *)

Module RendererFacts.

Import Js JsFacts Renderer.

(** [updateUIFromSettings] and [showStatus] write to the page only. *)
Lemma settings_showStatus (app : App) (m t : string) :
  settings (showStatus app m t) = settings app.
Proof. reflexivity. Qed.

Lemma settings_updateUI (app : App) :
  settings (updateUIFromSettings app) = settings app.
Proof. reflexivity. Qed.

(** The last spread of [applyPreset] decides the display settings. *)
Lemma get_display_spread (o : Obj) (ff fs af bg tc : Val) (k : string) :
  In k display_keys ->
  get (spread o [ ("fontFamily", ff); ("fontSize", fs); ("autoFit", af);
                  ("bgColor", bg); ("textColor", tc) ]) k
  = get [ ("fontFamily", ff); ("fontSize", fs); ("autoFit", af);
          ("bgColor", bg); ("textColor", tc) ] k.
Proof.
  unfold display_keys, spread; simpl.
  intros [H | [H | [H | [H | [H | []]]]]]; subst k;
    repeat first [ rewrite get_set_same; reflexivity
                 | rewrite get_set_other by discriminate ].
Qed.

(** C9.  Applying a preset leaves every display setting as it was: whatever
    the preset object holds (display keys included) and whatever the
    settings were, [fontFamily], [fontSize], [autoFit], [bgColor] and
    [textColor] read the same after [applyPreset] as before. *)
Theorem applyPreset_keeps_display_settings (app : App) (preset : option Obj) :
  exists app',
    applyPreset (Some app) preset = Some app'
    /\ Forall (fun k => get (settings app') k = get (settings app) k)
              display_keys.
Proof.
  destruct preset as [p|]; unfold applyPreset.
  - eexists; split; [reflexivity|].
    rewrite settings_showStatus, settings_updateUI.
    unfold with_settings; cbn [settings].
    apply Forall_forall. intros k Hk.
    rewrite get_display_spread by exact Hk.
    unfold display_keys in Hk. simpl in Hk.
    destruct Hk as [H | [H | [H | [H | [H | []]]]]]; subst k; reflexivity.
  - exists app. split; [reflexivity|].
    apply Forall_forall; intros; reflexivity.
Qed.

(** *** Counting tags in the output of [processAnsiOutput] *)

(** A pattern without [x] cannot end inside a text that begins with [x]. *)
Lemma starts_with_before (x : ascii) (r s t : string) :
  Str.mem x r = false -> Str.headed x t ->
  Str.starts_with r (s ++ t) = Str.starts_with r s.
Proof.
  revert s. induction r as [|y r IH]; intros s Hm Ht; [destruct s; reflexivity|].
  simpl in Hm. apply orb_false_iff in Hm as [Hxy Hm].
  destruct s as [|b s]; simpl.
  - destruct t as [|c t]; [reflexivity|]. simpl in Ht; subst c.
    rewrite Ascii.eqb_sym, Hxy. reflexivity.
  - now rewrite IH.
Qed.

(** Matches of a pattern [a r] are counted separately on either side of a
    point where the text goes on with a character that [r] lacks. *)
Lemma count_from_app (a x : ascii) (r t : string) :
  Str.mem x r = false -> Str.headed x t ->
  forall (s : string) (k : nat),
    k <= String.length s ->
    Scan.count_from (String a r) k (s ++ t)
    = Scan.count_from (String a r) k s + Scan.count_from (String a r) 0 t.
Proof.
  intros Hm Ht. induction s as [|c s IH]; intros k Hk.
  - simpl in Hk. assert (k = 0) by lia. subst k. destruct t; reflexivity.
  - change (String c s ++ t) with (String c (s ++ t)).
    destruct k as [|k].
    + cbn [Scan.count_from Str.starts_with].
      rewrite (starts_with_before x r s t Hm Ht).
      destruct (Ascii.eqb a c && Str.starts_with r s) eqn:E.
      * apply andb_true_iff in E as [_ E].
        apply StrFacts.starts_with_length in E.
        rewrite IH by (simpl; lia). reflexivity.
      * apply IH. lia.
    + cbn [Scan.count_from]. apply IH. simpl in Hk. lia.
Qed.

Lemma closers_headed (n : nat) : Str.headed "<" (Str.repeat "</span>" n).
Proof. destruct n; simpl; auto. Qed.

Lemma count_open_closers (n : nat) :
  Scan.count_from "<span" 0 (Str.repeat "</span>" n) = 0.
Proof.
  induction n as [|n IH]; [reflexivity|].
  cbn [Str.repeat].
  rewrite (count_from_app "<" "<" "span" _ eq_refl (closers_headed n) "</span>" 0)
    by (simpl; lia).
  rewrite IH. reflexivity.
Qed.

Lemma count_close_closers (n : nat) :
  Scan.count_from "</span>" 0 (Str.repeat "</span>" n) = n.
Proof.
  induction n as [|n IH]; [reflexivity|].
  cbn [Str.repeat].
  rewrite (count_from_app "<" "<" "/span>" _ eq_refl (closers_headed n) "</span>" 0)
    by (simpl; lia).
  rewrite IH. reflexivity.
Qed.

Lemma append_closers_repeat (n : nat) (p : string) :
  append_closers n p = p ++ Str.repeat "</span>" n.
Proof.
  revert p. induction n as [|n IH]; intros p; simpl.
  - now rewrite StrFacts.append_nil_r.
  - rewrite IH. apply StrFacts.append_assoc.
Qed.

(** Appending the missing closers to any text balances the counts. *)
Lemma closers_balance (p : string) :
  let out := append_closers (Scan.count_matches "<span" p
                             - Scan.count_matches "</span>" p) p in
  Scan.count_matches "<span" out = Scan.count_matches "<span" p
  /\ Scan.count_matches "</span>" out
     = Scan.count_matches "</span>" p
       + (Scan.count_matches "<span" p - Scan.count_matches "</span>" p).
Proof.
  intros out. subst out. rewrite append_closers_repeat.
  unfold Scan.count_matches.
  set (n := Scan.count_from "<span" 0 p - Scan.count_from "</span>" 0 p).
  rewrite (count_from_app "<" "<" "span" _ eq_refl (closers_headed n) p 0)
    by lia.
  rewrite (count_from_app "<" "<" "/span>" _ eq_refl (closers_headed n) p 0)
    by lia.
  rewrite count_open_closers, count_close_closers. split; lia.
Qed.

(** C10.  For every input, the HTML made by [processAnsiOutput] holds at
    least as many closing tags [</span>] as opening [<span], whatever text
    the numeric parameters of the colour codes are printed as. *)
Theorem processAnsiOutput_spans_closed (number_text : N -> string)
                                       (ansi : string) :
  Scan.count_matches "<span" (processAnsiOutput number_text ansi)
  <= Scan.count_matches "</span>" (processAnsiOutput number_text ansi).
Proof.
  unfold processAnsiOutput.
  destruct (closers_balance
              (replace_ansi number_text 0 (replace_newlines ansi))) as [Ho Hc].
  rewrite Ho, Hc. lia.
Qed.

End RendererFacts.

(* ------------------------------------------------------------------------- *)
(** ** The result cache *)

Module CacheFacts.

Import Main.

Local Open Scope list_scope.

Lemma cache_get_set_same (c : Cache) (k v : string) :
  cache_get (cache_set c k v) k = Some v.
Proof.
  induction c as [|[k' v'] rest IH]; simpl.
  - now rewrite String.eqb_refl.
  - destruct (String.eqb k' k) eqn:E; simpl; rewrite E; auto.
Qed.

Lemma cache_get_set_other (c : Cache) (k k' v : string) :
  k <> k' -> cache_get (cache_set c k v) k' = cache_get c k'.
Proof.
  intros Hne. induction c as [|[k0 v0] rest IH]; simpl.
  - apply String.eqb_neq in Hne. now rewrite Hne.
  - destruct (String.eqb k0 k) eqn:E; simpl.
    + apply String.eqb_eq in E; subst k0.
      apply String.eqb_neq in Hne. now rewrite Hne.
    + destruct (String.eqb k0 k'); auto.
Qed.

Lemma cache_get_none (c : Cache) (k : string) :
  cache_get c k = None <-> ~ In k (cache_keys c).
Proof.
  induction c as [|[k' v'] rest IH]; simpl; [tauto|].
  destruct (String.eqb k' k) eqn:E.
  - apply String.eqb_eq in E. split; [discriminate | intros H; exfalso; auto].
  - apply String.eqb_neq in E. rewrite IH. tauto.
Qed.

Lemma cache_get_in (c : Cache) (k v : string) :
  cache_get c k = Some v -> In (k, v) c.
Proof.
  induction c as [|[k' v'] rest IH]; simpl; [discriminate|].
  destruct (String.eqb k' k) eqn:E.
  - apply String.eqb_eq in E. intros H; injection H as ->. left; now subst.
  - auto.
Qed.

Lemma cache_get_nodup (c : Cache) (k v : string) :
  NoDup (cache_keys c) -> In (k, v) c -> cache_get c k = Some v.
Proof.
  induction c as [|[k' v'] rest IH]; simpl; [tauto|].
  intros Hnd [H | H].
  - injection H as -> ->. now rewrite String.eqb_refl.
  - apply NoDup_cons_iff in Hnd as [Hnot Hnd].
    destruct (String.eqb k' k) eqn:E; [|auto].
    apply String.eqb_eq in E; subst k'. exfalso. apply Hnot.
    change k with (fst (k, v)). now apply in_map.
Qed.

Lemma distinct_NoDup (keys : list string) :
  distinct keys = true -> NoDup keys.
Proof.
  induction keys as [|k rest IH]; simpl; [constructor|].
  intros H. apply andb_true_iff in H as [Hk Hrest].
  constructor; [|auto]. intros Hin.
  apply negb_true_iff in Hk.
  assert (Hex : existsb (String.eqb k) rest = true).
  { apply existsb_exists. exists k. split; [exact Hin | apply String.eqb_refl]. }
  congruence.
Qed.

(** A key that is not in the map is entered last. *)
Lemma cache_set_new (c : Cache) (k v : string) :
  cache_get c k = None -> cache_set c k v = (c ++ [(k, v)])%list.
Proof.
  induction c as [|[k' v'] rest IH]; simpl; [reflexivity|].
  destruct (String.eqb k' k); [discriminate|]. intros H. now rewrite IH.
Qed.

Lemma cache_set_length (c : Cache) (k v : string) :
  List.length (cache_set c k v) <= S (List.length c).
Proof.
  induction c as [|[k' v'] rest IH]; simpl; [lia|].
  destruct (String.eqb k' k); simpl; lia.
Qed.

(** Every entry of the map after [set] is an old one or the new one. *)
Lemma cache_set_in (c : Cache) (k v : string) (e : string * string) :
  In e (cache_set c k v) -> In e c \/ e = (k, v).
Proof.
  induction c as [|[k' v'] rest IH]; simpl.
  - intros [H | []]; auto.
  - destruct (String.eqb k' k) eqn:E; simpl.
    + apply String.eqb_eq in E; subst k'. intros [H | H]; auto.
    + intros [H | H]; auto. apply IH in H. tauto.
Qed.

(** Deleting the first [n] keys in order removes the first [n] entries. *)
Lemma delete_oldest (c : Cache) (n : nat) :
  fold_left cache_delete (firstn n (cache_keys c)) c = skipn n c.
Proof.
  revert n. induction c as [|[k v] rest IH]; intros [|n]; simpl; try reflexivity.
  rewrite String.eqb_refl. apply IH.
Qed.

(** The limit keeps the ten newest entries. *)
Lemma limit_cache_skipn (c : Cache) :
  limit_cache c = skipn (List.length c - 10) c.
Proof.
  unfold limit_cache. destruct (Nat.ltb 10 (List.length c)) eqn:E.
  - apply delete_oldest.
  - apply Nat.ltb_ge in E.
    replace (List.length c - 10) with 0 by lia. reflexivity.
Qed.

Lemma limit_cache_length (c : Cache) : List.length (limit_cache c) <= 10.
Proof. rewrite limit_cache_skipn, length_skipn. lia. Qed.

Lemma limit_cache_in (c : Cache) (e : string * string) :
  In e (limit_cache c) -> In e c.
Proof.
  rewrite limit_cache_skipn. intros H.
  rewrite <- (firstn_skipn (List.length c - 10) c). apply in_or_app. now right.
Qed.

Lemma store_result_length (c : Cache) (k v : string) :
  List.length (store_result c k v) <= 10.
Proof. apply limit_cache_length. Qed.

Lemma store_result_in (c : Cache) (k v : string) (e : string * string) :
  In e (store_result c k v) -> In e c \/ e = (k, v).
Proof. intros H. apply limit_cache_in in H. now apply cache_set_in. Qed.

(** A new key survives the limit: it is the newest entry. *)
Lemma store_result_get_new (c : Cache) (k v : string) :
  cache_get c k = None -> cache_get (store_result c k v) k = Some v.
Proof.
  intros Hn. unfold store_result.
  rewrite limit_cache_skipn, (cache_set_new c k v Hn), length_app. simpl.
  rewrite skipn_app.
  replace (List.length c + 1 - 10 - List.length c) with 0 by lia. simpl.
  assert (Hk : forall l : Cache,
             (forall e, In e l -> In e c) ->
             cache_get (l ++ [(k, v)]) k = Some v).
  { induction l as [|[k' v'] l IH]; intros Hsub; simpl.
    - now rewrite String.eqb_refl.
    - destruct (String.eqb k' k) eqn:E.
      + apply String.eqb_eq in E; subst k'. exfalso.
        apply cache_get_none in Hn. apply Hn.
        change k with (fst (k, v')). apply in_map. apply Hsub. now left.
      + apply IH. intros e He. apply Hsub. now right. }
  apply Hk. intros e He.
  rewrite <- (firstn_skipn (List.length c + 1 - 10) c). apply in_or_app. now right.
Qed.

(** Storing results under distinct new keys keeps the ten newest of them. *)
Lemma store_results_distinct (kvs : list (string * string)) :
  forall c : Cache,
    List.length c <= 10 ->
    NoDup (cache_keys (c ++ kvs)) ->
    fold_left (fun c kv => store_result c (fst kv) (snd kv)) kvs c
    = skipn (List.length (c ++ kvs) - 10) (c ++ kvs).
Proof.
  induction kvs as [|[k v] rest IH]; intros c Hlen Hnd.
  - rewrite app_nil_r. simpl.
    replace (List.length c - 10) with 0 by lia. reflexivity.
  - cbn [fold_left fst snd].
    assert (Hnew : cache_get c k = None).
    { apply cache_get_none. unfold cache_keys in *. rewrite map_app in Hnd.
      simpl in Hnd. apply NoDup_remove_2 in Hnd. intros Hin. apply Hnd.
      apply in_or_app. now left. }
    assert (Hst : store_result c k v
                  = skipn (List.length c + 1 - 10) (c ++ [(k, v)])).
    { unfold store_result.
      rewrite limit_cache_skipn, (cache_set_new c k v Hnew), length_app.
      reflexivity. }
    set (m := List.length c + 1 - 10) in *.
    assert (Hcat : (store_result c k v ++ rest)%list
                   = skipn m (c ++ (k, v) :: rest)).
    { rewrite Hst.
      replace (c ++ (k, v) :: rest)%list with ((c ++ [(k, v)]) ++ rest)%list
        by (rewrite <- app_assoc; reflexivity).
      rewrite (skipn_app m (c ++ [(k, v)])), length_app. simpl.
      replace (m - (List.length c + 1)) with 0 by (subst m; lia).
      reflexivity. }
    rewrite IH.
    + rewrite Hcat, skipn_skipn, length_skipn. f_equal.
      rewrite !length_app. simpl. subst m. lia.
    + apply store_result_length.
    + rewrite Hcat. unfold cache_keys in *. rewrite <- skipn_map.
      rewrite <- (firstn_skipn m (map fst (c ++ (k, v) :: rest))) in Hnd.
      now apply NoDup_app_remove_l in Hnd.
Qed.

End CacheFacts.

(* ------------------------------------------------------------------------- *)
(** ** The conversion handler *)

Module HandlerFacts.

Import Js Main CacheFacts.

Lemma names_failure_prefix (p rest : string) :
  In p failure_prefixes -> names_failure (p ++ rest) = true.
Proof.
  intros Hin. unfold names_failure. apply existsb_exists.
  exists p. split; [exact Hin | apply StrFacts.starts_with_app].
Qed.

(** The close handler on a failed run: a rejection, the cache untouched. *)
Lemma on_close_failure (r : Running) (code : option Z) (stderr : string)
                       (output : ReadResult) (s : State) :
  child_succeeded (Closed 0 code "" stderr output) = false ->
  exists message,
    fst (on_close r code stderr output s) = Rejected message
    /\ names_failure message = true
    /\ processCache (snd (on_close r code stderr output s)) = processCache s.
Proof.
  unfold on_close. intros Hf.
  destruct code as [[|c|c]|]; [destruct output as [content|m]|..];
    try discriminate Hf; simpl;
    eexists; (split; [reflexivity|]); split; reflexivity.
Qed.

Lemma on_error_failure (r : Running) (m : string) (s : State) :
  exists message,
    fst (on_error r m s) = Rejected message
    /\ names_failure message = true
    /\ processCache (snd (on_error r m s)) = processCache s.
Proof.
  eexists; split; [reflexivity|]. split; reflexivity.
Qed.

(** The close handler on a successful run: the result is returned and
    stored, and the cache holds at most ten entries. *)
Lemma on_close_success (r : Running) (stderr content : string) (s : State) :
  on_close r (Some 0%Z) stderr (ReadOk content) s
  = (Resolved content,
     with_cache
       (with_processes s (delete_process (activeProcesses s) (run_pid r)))
       (store_result (processCache s) (run_key r) content)).
Proof. reflexivity. Qed.

Lemma on_close_cache_bound (r : Running) (code : option Z) (stderr : string)
                           (output : ReadResult) (s : State) :
  List.length (processCache s) <= 10 ->
  List.length (processCache (snd (on_close r code stderr output s))) <= 10.
Proof.
  intros H. unfold on_close.
  destruct code as [[|c|c]|]; [destruct output as [content|m]|..]; simpl;
    try exact H. apply store_result_length.
Qed.

(** A hit settles the promise at once: nothing is spawned, nothing changes. *)
Lemma process_image_begin_hit (w : World) (s : State) (imagePath : string)
                              (settings : Obj) (v : string) :
  cache_get (processCache s) (getCacheKey imagePath settings) = Some v ->
  process_image_begin w s imagePath settings = Settled (Resolved v) s.
Proof. intros H. unfold process_image_begin. now rewrite H. Qed.

(** After a conversion has resolved, its key is a hit for its result. *)
Lemma process_image_stores (w : World) (s s' : State) (imagePath : string)
                           (settings : Obj) (r : string) :
  process_image w s imagePath settings = (Resolved r, s') ->
  cache_get (processCache s') (getCacheKey imagePath settings) = Some r.
Proof.
  unfold process_image, process_image_begin.
  destruct (cache_get (processCache s) (getCacheKey imagePath settings))
    as [cached|] eqn:Hget.
  - intros H. injection H as -> ->. exact Hget.
  - destruct (negb (existsSync w (bridgeScript w))); [discriminate|].
    destruct (negb (existsSync w imagePath)); [discriminate|].
    destruct (build_args w s imagePath settings) as [args|]; [|discriminate].
    destruct (spawn w (pythonPath s) args) as [m|pid code out err output].
    + discriminate.
    + unfold on_close.
      destruct code as [[|c|c]|]; [destruct output as [content|m]|..];
        try discriminate.
      intros H. injection H as -> <-. simpl.
      now apply store_result_get_new.
Qed.

(** The cache never grows past ten entries. *)
Lemma process_image_cache_bound (w : World) (s : State) (imagePath : string)
                                (settings : Obj) :
  List.length (processCache s) <= 10 ->
  List.length (processCache (snd (process_image w s imagePath settings))) <= 10.
Proof.
  intros H. unfold process_image, process_image_begin.
  destruct (cache_get (processCache s) (getCacheKey imagePath settings));
    [exact H|].
  destruct (negb (existsSync w (bridgeScript w))); [exact H|].
  destruct (negb (existsSync w imagePath)); [exact H|].
  destruct (build_args w s imagePath settings) as [args|]; [|exact H].
  destruct (spawn w (pythonPath s) args) as [m|pid code out err output].
  - exact H.
  - apply on_close_cache_bound. exact H.
Qed.

(** C1.  When the key of (image path, settings) is in the cache, the
    handler returns the stored string as it is, without spawning anything
    and without changing the state, the cache included; the string is the
    one that the conversion which left this state had returned for the same
    pair, so the two outputs are identical. *)
Theorem process_image_cache_hit (w : World) (s : State) (imagePath : string)
                                (settings : Obj) (v : string) :
  cache_get (processCache s) (getCacheKey imagePath settings) = Some v ->
  process_image_begin w s imagePath settings = Settled (Resolved v) s
  /\ process_image w s imagePath settings = (Resolved v, s)
  /\ forall (w0 : World) (s0 : State) (r : string),
       process_image w0 s0 imagePath settings = (Resolved r, s) -> r = v.
Proof.
  intros Hhit. split; [|split].
  - now apply process_image_begin_hit.
  - unfold process_image. now rewrite (process_image_begin_hit w s _ _ v).
  - intros w0 s0 r Hfirst. apply process_image_stores in Hfirst.
    rewrite Hfirst in Hhit. now injection Hhit.
Qed.

(** C6.  A conversion that misses the cache and fails (no bridge script,
    no image file, the child not started, a non-zero exit code, or an
    unreadable output file) rejects with a message that names the failure;
    no string is returned and the cache is left as it was. *)
Theorem process_image_failure_atomic (w : World) (s : State)
                                     (imagePath : string) (settings : Obj) :
  cache_get (processCache s) (getCacheKey imagePath settings) = None ->
  existsSync w (bridgeScript w) = false
  \/ existsSync w imagePath = false
  \/ (exists args,
        build_args w s imagePath settings = Some args
        /\ child_succeeded (spawn w (pythonPath s) args) = false) ->
  exists message,
    fst (process_image w s imagePath settings) = Rejected message
    /\ names_failure message = true
    /\ processCache (snd (process_image w s imagePath settings))
       = processCache s.
Proof.
  intros Hmiss Hfail. unfold process_image, process_image_begin. rewrite Hmiss.
  destruct (existsSync w (bridgeScript w)) eqn:Hb; simpl.
  2:{ eexists; split; [reflexivity|]. split; reflexivity. }
  destruct (existsSync w imagePath) eqn:Hi; simpl.
  2:{ eexists; split; [reflexivity|]. split; reflexivity. }
  destruct Hfail as [Hf | [Hf | (args & Hargs & Hf)]]; try discriminate Hf.
  rewrite Hargs.
  destruct (spawn w (pythonPath s) args) as [m|pid code out err output].
  - eexists; split; [reflexivity|]. split; reflexivity.
  - match goal with
    | |- context [on_close ?r ?c ?e ?o ?st] =>
        destruct (on_close_failure r c e o st) as (message & H1 & H2 & H3)
    end.
    + destruct code as [[|c|c]|]; try reflexivity.
      destruct output; [discriminate Hf | reflexivity].
    + exists message. split; [exact H1|]. split; [exact H2|].
      rewrite H3. reflexivity.
Qed.

(** The cache after a run of successful close events. *)
Lemma finished_cache (kvs : list (string * string)) :
  forall s : State,
    processCache
      (fold_left (fun s kv => snd (on_close (mkRunning (fst kv) None) (Some 0%Z) ""
                                            (ReadOk (snd kv)) s)) kvs s)
    = fold_left (fun c kv => store_result c (fst kv) (snd kv)) kvs
                (processCache s).
Proof.
  induction kvs as [|[k v] rest IH]; intros s; [reflexivity|].
  cbn [fold_left]. rewrite IH. reflexivity.
Qed.

(** C2.  The cache holds at most ten entries after any conversion has
    completed, and the oldest entry goes first: when eleven conversions
    with distinct keys complete on an empty cache, the first key is absent
    and the ten later keys are present with their results. *)
Theorem cache_keeps_ten_newest (k0 v0 : string) (rest : list (string * string))
                               (s0 : State) :
  List.length rest = 10 ->
  distinct (cache_keys ((k0, v0) :: rest)) = true ->
  processCache s0 = [] ->
  let finish s kv :=
    snd (on_close (mkRunning (fst kv) None) (Some 0%Z) "" (ReadOk (snd kv)) s) in
  let s := fold_left finish ((k0, v0) :: rest) s0 in
  cache_get (processCache s) k0 = None
  /\ (forall k v, In (k, v) rest -> cache_get (processCache s) k = Some v)
  /\ List.length (processCache s) = 10
  /\ (forall r stderr content s1,
        List.length
          (processCache (snd (on_close r (Some 0%Z) stderr (ReadOk content) s1)))
        <= 10)
  /\ (forall w s1 imagePath settings,
        List.length (processCache s1) <= 10 ->
        List.length
          (processCache (snd (process_image w s1 imagePath settings))) <= 10).
Proof.
  intros Hlen Hnd Hempty finish s. apply distinct_NoDup in Hnd.
  assert (Hs : processCache s = rest).
  { subst s finish. rewrite finished_cache, Hempty.
    rewrite store_results_distinct; [|simpl; lia|exact Hnd].
    simpl List.length. rewrite Hlen. reflexivity. }
  rewrite Hs. simpl in Hnd. apply NoDup_cons_iff in Hnd as [Hnot Hnd].
  split; [now apply cache_get_none|].
  split; [intros k v Hin; now apply cache_get_nodup|].
  split; [exact Hlen|].
  split.
  - intros r stderr content s1. rewrite on_close_success. simpl.
    apply store_result_length.
  - intros w s1 imagePath settings. apply process_image_cache_bound.
Qed.

(** C3 (as stated, refuted).  The key does not follow the bytes of the
    image: two paths whose files hold the same bytes get different keys. *)
Lemma cache_key_not_by_content :
  ~ (forall (bytes : string -> string) (p1 p2 : string) (settings : Obj),
       bytes p1 = bytes p2 ->
       getCacheKey p1 settings = getCacheKey p2 settings).
Proof.
  intros H.
  specialize (H (fun _ => "same bytes") "a.png" "copy-of-a.png"
                default_lastSettings eq_refl).
  vm_compute in H. discriminate H.
Qed.

(** C3 (amended).  The key is the image path joined to the serialized
    settings: under equal settings two requests have the same key exactly
    when their paths are equal. *)
Theorem cache_key_by_path (p1 p2 : string) (settings : Obj) :
  getCacheKey p1 settings = getCacheKey p2 settings <-> p1 = p2.
Proof.
  unfold getCacheKey. split; [|intros ->; reflexivity].
  apply StrFacts.append_inv_r.
Qed.

(** C4.  The arguments handed to the engine do not depend on
    [customChars]: a custom character set in the settings is dropped, and
    the named preset is passed as it is. *)
Theorem build_args_drops_customChars (w : World) (s : State)
    (imagePath : string) (settings : Obj) (chars : Val) :
  build_args w s imagePath (set settings "customChars" chars)
  = build_args w s imagePath settings.
Proof.
  unfold build_args.
  rewrite !JsFacts.get_set_other by discriminate. reflexivity.
Qed.

(** The request with the custom set [@#] and the request without one spawn
    the same command line. *)
Example custom_chars_same_command :
  build_args Sample.engine_world initial_state "cat.png"
             Sample.custom_chars_settings
  = build_args Sample.engine_world initial_state "cat.png"
               Renderer.default_settings.
Proof. reflexivity. Qed.

(** The two commands that ask the bridge for data return the state as
    they found it. *)
Lemma get_character_presets_state (w : World) (s : State) :
  snd (get_character_presets w s) = s.
Proof.
  unfold get_character_presets.
  destruct (negb (existsSync w (bridgeScript w))); [reflexivity|].
  destruct (spawn w (pythonPath s) [VStr (bridgeScript w); VStr "get_presets"])
    as [m|pid code out err output]; [reflexivity|].
  destruct code as [[|c|c]|]; try reflexivity.
  destruct (JSON_parse_trimmed w out); reflexivity.
Qed.

Lemma suggest_optimal_settings_state (w : World) (s : State)
                                     (imagePath : string) :
  snd (suggest_optimal_settings w s imagePath) = s.
Proof.
  unfold suggest_optimal_settings.
  destruct (negb (existsSync w imagePath)); [reflexivity|].
  destruct (spawn w (pythonPath s)
              [VStr (bridgeScript w); VStr "suggest_settings";
               VStr imagePath; VStr "100"])
    as [m|pid code out err output]; [reflexivity|].
  destruct code as [[|c|c]|]; try reflexivity.
  destruct (JSON_parse_trimmed w out); [reflexivity|].
  destruct (Nat.ltb 0 (List.length (fallback_settings (out ++ err))));
    reflexivity.
Qed.

(** C7 (as stated, refuted).  With the bridge script missing, the command
    resolves with the empty list; no error reaches the caller. *)
Lemma presets_failure_is_silent :
  existsSync Sample.bare_world (bridgeScript Sample.bare_world) = false
  /\ get_character_presets Sample.bare_world initial_state
     = (Resolved (JArr []), initial_state)
  /\ ~ (exists message,
          fst (get_character_presets Sample.bare_world initial_state)
          = Rejected message).
Proof.
  split; [reflexivity|]. split; [reflexivity|].
  intros [message H]. discriminate H.
Qed.

(** C7 (amended).  The command never rejects.  In each failure mode (no
    bridge script, the child not started, a non-zero exit code, output that
    does not parse) it resolves with the empty list; otherwise with the
    parsed output. *)
Theorem get_character_presets_never_rejects (w : World) (s : State) :
  let child := spawn w (pythonPath s) [VStr (bridgeScript w); VStr "get_presets"] in
  let parsed :=
    match child with
    | Closed _ (Some 0%Z) stdout _ _ => JSON_parse_trimmed w stdout
    | _ => None
    end in
  snd (get_character_presets w s) = s
  /\ (forall message, fst (get_character_presets w s) <> Rejected message)
  /\ fst (get_character_presets w s)
     = Resolved (if existsSync w (bridgeScript w)
                 then match parsed with
                      | Some presets => presets
                      | None => JArr []
                      end
                 else JArr []).
Proof.
  cbv zeta.
  assert (H : fst (get_character_presets w s)
              = Resolved
                  (if existsSync w (bridgeScript w)
                   then match
                          match spawn w (pythonPath s)
                                  [VStr (bridgeScript w); VStr "get_presets"] with
                          | Closed _ (Some 0%Z) stdout _ _ =>
                              JSON_parse_trimmed w stdout
                          | _ => None
                          end
                        with
                        | Some presets => presets
                        | None => JArr []
                        end
                   else JArr [])).
  { unfold get_character_presets.
    destruct (existsSync w (bridgeScript w)); simpl; [|reflexivity].
    destruct (spawn w (pythonPath s) [VStr (bridgeScript w); VStr "get_presets"])
      as [m|pid code out err output]; [reflexivity|].
    destruct code as [[|c|c]|]; try reflexivity.
    destruct (JSON_parse_trimmed w out); reflexivity. }
  split; [apply get_character_presets_state|].
  split; [|exact H].
  intros message. rewrite H. discriminate.
Qed.

(** C8.  The suggestion command leaves the state of the main process as
    it was, the result cache and the stored last settings in particular,
    and always resolves, with suggested settings or with an error text.
    The renderer's [analyzeImage] does not reach the main process at all:
    it works on the page. *)
Theorem suggest_optimal_settings_no_effect (w : World) (s : State)
                                           (imagePath : string) :
  snd (suggest_optimal_settings w s imagePath) = s
  /\ processCache (snd (suggest_optimal_settings w s imagePath))
     = processCache s
  /\ lastSettings (store (snd (suggest_optimal_settings w s imagePath)))
     = lastSettings (store s)
  /\ handle s (SuggestOptimalSettings w imagePath) = s
  /\ ((exists settings,
         fst (suggest_optimal_settings w s imagePath)
         = Resolved (Suggested settings))
      \/ (exists error,
            fst (suggest_optimal_settings w s imagePath)
            = Resolved (NotSuggested error))).
Proof.
  assert (H : snd (suggest_optimal_settings w s imagePath) = s
              /\ ((exists settings,
                     fst (suggest_optimal_settings w s imagePath)
                     = Resolved (Suggested settings))
                  \/ (exists error,
                        fst (suggest_optimal_settings w s imagePath)
                        = Resolved (NotSuggested error)))).
  { unfold suggest_optimal_settings.
    destruct (negb (existsSync w imagePath)); [simpl; eauto|].
    destruct (spawn w (pythonPath s)
                [VStr (bridgeScript w); VStr "suggest_settings";
                 VStr imagePath; VStr "100"])
      as [m|pid code out err output]; [simpl; eauto|].
    destruct code as [[|c|c]|]; try (simpl; solve [eauto]).
    destruct (JSON_parse_trimmed w out); [simpl; eauto|].
    destruct (Nat.ltb 0 (List.length (fallback_settings (out ++ err))));
      simpl; eauto. }
  destruct H as [Hs Hr]. unfold handle. rewrite Hs. auto.
Qed.

End HandlerFacts.

(* ------------------------------------------------------------------------- *)
(** ** The engine's width check, seen through the shell *)

Module EngineFacts.

Import Js Main Engine.

(** *** Where two splittings of one string meet *)

Lemma append_eq_append (a b c d : string) :
  a ++ b = c ++ d ->
  exists t, (a = c ++ t /\ d = t ++ b) \/ (c = a ++ t /\ b = t ++ d).
Proof.
  revert c. induction a as [|x a IH]; intros c H.
  - exists c. right. simpl in *. auto.
  - destruct c as [|y c].
    + exists (String x a). left. simpl in *. auto.
    + simpl in H. injection H as -> H. destruct (IH c H) as [t [[H1 H2] | [H1 H2]]].
      * exists t. left. simpl. now rewrite <- H1.
      * exists t. right. simpl. now rewrite <- H1.
Qed.

(** *** The scanner *)

Lemma scan_app (q : Seen) (a b : string) :
  scan q (a ++ b) = scan (scan q a) b.
Proof. revert q. induction a as [|c a IH]; intros q; simpl; auto. Qed.

Lemma scan_found (s : string) : scan Found s = Found.
Proof. induction s; simpl; auto. Qed.

(** Wherever the three characters stand, the scanner finds them. *)
Lemma scan_opening (q : Seen) (a b : string) :
  scan q (a ++ opening ++ b) = Found.
Proof.
  rewrite scan_app. unfold opening. simpl.
  destruct (scan q a); simpl; apply scan_found.
Qed.

Lemma escape_char_calm (c : ascii) (q : Seen) :
  calm q -> calm (scan q (Text.escape_char c)).
Proof.
  intros [-> | ->];
    destruct c as [[] [] [] [] [] [] [] []]; vm_compute; auto.
Qed.

Lemma escape_calm (s : string) (q : Seen) :
  calm q -> calm (scan q (Text.escape s)).
Proof.
  revert q. induction s as [|c s IH]; intros q Hq; simpl; [exact Hq|].
  rewrite scan_app. apply IH. now apply escape_char_calm.
Qed.

Lemma see_plain (q : Seen) (c : ascii) :
  Ascii.eqb c "{" = false -> Ascii.eqb c "o" = false ->
  q = Nothing \/ q = BraceQuote -> see q c = Nothing.
Proof.
  intros H1 H2 [-> | ->]; unfold see; rewrite H1; try rewrite H2; reflexivity.
Qed.

(** A quoted string followed by a character other than the brace and the
    letter o leaves the scanner where it started. *)
Lemma scan_quote (s : string) (c : ascii) (rest : string) :
  Ascii.eqb c "{" = false -> Ascii.eqb c "o" = false ->
  scan Nothing (Text.quote s ++ String c rest) = scan Nothing rest.
Proof.
  intros H1 H2. unfold Text.quote.
  change (String Text.dquote (Text.escape s ++ String Text.dquote "") ++ String c rest)
    with (String Text.dquote ((Text.escape s ++ String Text.dquote "") ++ String c rest)).
  rewrite StrFacts.append_assoc.
  change (String Text.dquote "" ++ String c rest)
    with (String Text.dquote (String c rest)).
  cbn [scan]. change (see Nothing Text.dquote) with Nothing.
  rewrite scan_app. cbn [scan].
  destruct (escape_calm s Nothing (or_introl eq_refl)) as [-> | ->].
  - change (see Nothing Text.dquote) with Nothing.
    rewrite see_plain; auto.
  - change (see Brace Text.dquote) with BraceQuote.
    rewrite see_plain; auto.
Qed.

Lemma mem_append (c : ascii) (a b : string) :
  Str.mem c (a ++ b) = Str.mem c a || Str.mem c b.
Proof. induction a as [|x a IH]; simpl; [reflexivity|]. now rewrite IH, orb_assoc. Qed.

Lemma scan_without_brace (s : string) :
  Str.mem "{" s = false -> scan Nothing s = Nothing.
Proof.
  induction s as [|c s IH]; [reflexivity|].
  cbn [Str.mem scan]. intros H. apply orb_false_iff in H as [Hc Hs].
  rewrite Ascii.eqb_sym in Hc.
  replace (see Nothing c) with Nothing; [auto|].
  unfold see. now rewrite Hc.
Qed.

Lemma uint_without_brace (d : Decimal.uint) :
  Str.mem "{" (NilEmpty.string_of_uint d) = false.
Proof. induction d; simpl; auto. Qed.

Lemma repeat_zero_without_brace (n : nat) :
  Str.mem "{" (Str.repeat "0" n) = false.
Proof. induction n; simpl; auto. Qed.

Lemma num_without_brace (n : Num) :
  Str.mem "{" (Text.num_to_string n) = false.
Proof.
  destruct n as [|m e]; [reflexivity|]. unfold Text.num_to_string.
  destruct (Text.strip_zeros m e) as [m' e'].
  destruct e' as [|e'];
    destruct (Z.ltb m' 0); unfold Text.digits;
    repeat rewrite mem_append;
    repeat rewrite uint_without_brace;
    repeat rewrite repeat_zero_without_brace; reflexivity.
Qed.

(** The text of a property value, followed by a comma or a closing brace. *)
Lemma scan_value (v : Val) (t : string) (c : ascii) (rest : string) :
  Text.stringify_val v = Some t ->
  c = ","%char \/ c = "}"%char ->
  scan Nothing (t ++ String c rest) = scan Nothing rest.
Proof.
  intros Hv Hc.
  assert (H1 : Ascii.eqb c "{" = false) by (destruct Hc; subst c; reflexivity).
  assert (H2 : Ascii.eqb c "o" = false) by (destruct Hc; subst c; reflexivity).
  assert (Hplain : Str.mem "{" t = false ->
                   scan Nothing (t ++ String c rest) = scan Nothing rest).
  { intros Hm. rewrite scan_app, (scan_without_brace t Hm). cbn [scan].
    rewrite see_plain; auto. }
  destruct v as [| |[]|[|m e]|s]; simpl in Hv; try discriminate;
    injection Hv as <-; try (apply Hplain; reflexivity).
  - apply Hplain. exact (num_without_brace (Fin m e)).
  - now apply scan_quote.
Qed.

(** Past its first character, the JSON text of an object never shows the
    three opening characters again. *)
Lemma scan_members (o : Obj) :
  scan Nothing (Str.join "," (Text.members o) ++ "}") = Nothing.
Proof.
  induction o as [|[k v] rest IH]; [reflexivity|].
  cbn [Text.members].
  destruct (Text.stringify_val v) as [t|] eqn:Hv; [|exact IH].
  assert (Hstep : forall (c : ascii) (tail : string),
             c = ","%char \/ c = "}"%char ->
             scan Nothing ((Text.quote k ++ ":" ++ t) ++ String c tail)
             = scan Nothing tail).
  { intros c tail Hc.
    change (Text.quote k ++ ":" ++ t) with (Text.quote k ++ String ":" t).
    rewrite StrFacts.append_assoc.
    change (String ":" t ++ String c tail) with (String ":" (t ++ String c tail)).
    rewrite scan_quote by reflexivity.
    now apply (scan_value v). }
  cbn [Str.join]. destruct (Text.members rest) as [|m ms] eqn:Hms.
  - apply (Hstep "}"%char ""). now right.
  - rewrite (StrFacts.append_assoc (Text.quote k ++ ":" ++ t)).
    change (("," ++ Str.join "," (m :: ms)) ++ "}")
      with (String "," (Str.join "," (m :: ms) ++ "}")).
    rewrite Hstep by now left. exact IH.
Qed.

(** *** The JSON text of a renderer's settings *)

Lemma stringify_tail (o : Obj) :
  Text.stringify o = String "{" (Str.join "," (Text.members o) ++ "}").
Proof. reflexivity. Qed.

Lemma stringify_shaped (st : Obj) (t : string) :
  renderer_shaped st = true ->
  Text.stringify_val (get st "outputWidth") = Some t ->
  exists c Y,
    (c = ","%char \/ c = "}"%char)
    /\ Text.stringify st
       = String "{" (Text.quote "outputWidth" ++ String ":" (t ++ String c Y)).
Proof.
  destruct st as [|[k v] rest]; [discriminate|].
  cbn [renderer_shaped]. intros Hk. apply String.eqb_eq in Hk. subst k.
  cbn [get]. rewrite String.eqb_refl. intros Hv.
  rewrite stringify_tail. cbn [Text.members]. rewrite Hv.
  cbn [Str.join]. destruct (Text.members rest) as [|m ms].
  - exists "}"%char, "". split; [now right | reflexivity].
  - exists ","%char, (Str.join "," (m :: ms) ++ "}").
    split; [now left|]. f_equal. rewrite !StrFacts.append_assoc. reflexivity.
Qed.

Lemma stringify_opening (st : Obj) (t : string) :
  renderer_shaped st = true ->
  Text.stringify_val (get st "outputWidth") = Some t ->
  exists r, Text.stringify st = opening ++ r.
Proof.
  intros Hs Hv. destruct (stringify_shaped st t Hs Hv) as (c & Y & _ & H).
  rewrite H. eexists. reflexivity.
Qed.

(** The opening characters of one settings text cannot stand inside
    another object's text. *)
Lemma no_inner_opening (o : Obj) (x r : string) :
  Text.stringify o <> x ++ ":" ++ opening ++ r.
Proof.
  rewrite stringify_tail. intros H. destruct x as [|y x].
  - discriminate H.
  - change (String y x ++ ":" ++ opening ++ r)
      with (String y (x ++ String ":" (opening ++ r))) in H.
    injection H as _ H.
    change (String "{" (String Text.dquote (String "o" r)))
      with (opening ++ r) in H.
    assert (Hx : x ++ String ":" (opening ++ r) = (x ++ ":") ++ opening ++ r)
      by (rewrite StrFacts.append_assoc; reflexivity).
    pose proof (scan_members o) as Hscan.
    rewrite H, Hx, scan_opening in Hscan.
    discriminate Hscan.
Qed.

Lemma num_to_string_zero (e : nat) : Text.num_to_string (Fin 0 e) = "0".
Proof.
  unfold Text.num_to_string.
  assert (H : Text.strip_zeros 0 e = (0%Z, 0)) by (induction e; simpl; auto).
  now rewrite H.
Qed.

(** Where the engine accepted the width, the settings text does not read
    [0] at the place of the width. *)
Lemma accepted_width_text (v : Val) (width t : string) (c c' : ascii)
                          (Y Y' : string) :
  Text.toString_method v = Some width ->
  positive_integer width = true ->
  Text.stringify_val v = Some t ->
  c' = ","%char \/ c' = "}"%char ->
  t ++ String c Y <> String "0" (String c' Y').
Proof.
  intros Hts Hpos Hv Hc' Heq.
  destruct v as [| |b|[|m e]|s];
    unfold Text.toString_method, Text.to_string, Text.stringify_val in *;
    try discriminate Hts.
  - destruct b; injection Hts as <-; vm_compute in Hpos; discriminate Hpos.
  - injection Hts as <-; vm_compute in Hpos; discriminate Hpos.
  - remember (Text.num_to_string (Fin m e)) as text eqn:Htext. clear Htext.
    injection Hts as <-. injection Hv as <-.
    destruct text as [|a w]; [vm_compute in Hpos; discriminate Hpos|].
    cbn [append] in Heq. injection Heq as -> Heq.
    destruct w as [|b w].
    + vm_compute in Hpos; discriminate Hpos.
    + cbn [append] in Heq. injection Heq as -> _.
      destruct Hc' as [-> | ->]; vm_compute in Hpos; discriminate Hpos.
  - injection Hv as <-. unfold Text.quote in Heq. cbn [append] in Heq.
    injection Heq as H0 _. vm_compute in H0. discriminate H0.
Qed.

(** The key of a request for width 0 differs from every key under which an
    accepted conversion was stored. *)
Lemma zero_width_key_fresh (p p' : string) (st st' : Obj) (width : string)
                           (e : nat) :
  renderer_shaped st = true ->
  Text.toString_method (get st "outputWidth") = Some width ->
  positive_integer width = true ->
  renderer_shaped st' = true ->
  get st' "outputWidth" = VNum (Fin 0 e) ->
  getCacheKey p st <> getCacheKey p' st'.
Proof.
  intros Hs Hts Hpos Hs' Hzero Heq.
  assert (Hv : exists t, Text.stringify_val (get st "outputWidth") = Some t).
  { destruct (get st "outputWidth") as [| |[]|[|m e0]|s0];
      try discriminate Hts; simpl; eauto. }
  destruct Hv as [t Hv].
  assert (Hv' : Text.stringify_val (get st' "outputWidth") = Some "0").
  { rewrite Hzero. unfold Text.stringify_val. now rewrite num_to_string_zero. }
  destruct (stringify_opening st t Hs Hv) as [r Hr].
  destruct (stringify_opening st' "0" Hs' Hv') as [r' Hr'].
  assert (Hsame : Text.stringify st <> Text.stringify st').
  { intros HJ.
    destruct (stringify_shaped st t Hs Hv) as (c & Y & _ & HY).
    destruct (stringify_shaped st' "0" Hs' Hv') as (c' & Y' & Hc' & HY').
    rewrite HY, HY' in HJ. injection HJ as HJ.
    exact (accepted_width_text _ _ _ _ _ _ _ Hts Hpos Hv Hc' HJ). }
  unfold getCacheKey in Heq.
  remember (Text.stringify st) as J eqn:HJ.
  remember (Text.stringify st') as J' eqn:HJ'.
  destruct (append_eq_append _ _ _ _ Heq) as [x [[_ H] | [_ H]]].
  - destruct x as [|y x]; cbn [append] in H.
    + injection H as H. now apply Hsame.
    + injection H as _ H. rewrite Hr, HJ' in H.
      exact (no_inner_opening st' x r H).
  - destruct x as [|y x]; cbn [append] in H.
    + injection H as H. now apply Hsame.
    + injection H as _ H. rewrite Hr', HJ in H.
      exact (no_inner_opening st x r' H).
Qed.

(** *** What the cache holds when the engine checks the width *)

Lemma build_args_width (w : World) (s : State) (imagePath : string)
                       (settings : Obj) (args : list Val) :
  build_args w s imagePath settings = Some args ->
  exists width,
    Text.toString_method (get settings "outputWidth") = Some width
    /\ option_value "--width" (skipn 3 args) = Some (VStr width)
    /\ is_generate args = true.
Proof.
  unfold build_args, bind.
  destruct (Text.toString_method (get settings "outputWidth")) as [width|];
    [|discriminate].
  repeat match goal with
         | |- context [match ?x with Some _ => _ | None => None end] =>
             destruct x; [|discriminate]
         end.
  intros H. injection H as <-. exists width. repeat split.
Qed.

Lemma process_image_accepted (w : World) (s : State) (imagePath : string)
                             (settings : Obj) :
  runs_engine w -> renderer_shaped settings = true ->
  Forall accepted_entry (processCache s) ->
  Forall accepted_entry
         (processCache (snd (process_image w s imagePath settings))).
Proof.
  intros Hw Hshape Hc. unfold process_image, process_image_begin.
  destruct (cache_get (processCache s) (getCacheKey imagePath settings));
    [exact Hc|].
  destruct (negb (existsSync w (bridgeScript w))); [exact Hc|].
  destruct (negb (existsSync w imagePath)); [exact Hc|].
  destruct (build_args w s imagePath settings) as [args|] eqn:Hargs; [|exact Hc].
  destruct (spawn w (pythonPath s) args) as [m|pid code out err output] eqn:Hsp;
    [exact Hc|].
  unfold on_close.
  destruct code as [[|c|c]|]; [destruct output as [content|m]|..];
    try exact Hc.
  cbn [snd processCache with_cache with_processes with_store].
  apply Forall_forall. intros kv Hin.
  apply CacheFacts.store_result_in in Hin as [Hin | ->].
  - revert kv Hin. now apply Forall_forall.
  - destruct (build_args_width _ _ _ _ _ Hargs) as (width & Hts & Hopt & Hgen).
    exists imagePath, settings, width. repeat split; auto.
    destruct (positive_integer width) eqn:Hpos; [reflexivity|].
    specialize (Hw (pythonPath s) args invalid_config_message Hgen).
    unfold validate_config in Hw. rewrite Hopt, Hpos, Hsp in Hw.
    destruct (Hw eq_refl) as [Hcode _]. now elim Hcode.
Qed.

Lemma handle_accepted (s : State) (r : Request) :
  engine_request r ->
  Forall accepted_entry (processCache s) ->
  Forall accepted_entry (processCache (handle s r)).
Proof.
  intros Hr Hc. destruct r as [w p st|w|w p| | | |]; cbn [handle].
  - destruct Hr as [Hw Hst]. now apply process_image_accepted.
  - now rewrite HandlerFacts.get_character_presets_state.
  - now rewrite HandlerFacts.suggest_optimal_settings_state.
  - constructor.
  - exact Hc.
  - exact Hc.
  - exact Hc.
Qed.

Lemma run_accepted (requests : list Request) :
  Forall engine_request requests ->
  Forall accepted_entry (processCache (run requests)).
Proof.
  unfold run.
  assert (H : forall s, Forall engine_request requests ->
                        Forall accepted_entry (processCache s) ->
                        Forall accepted_entry
                               (processCache (fold_left handle requests s))).
  { induction requests as [|r rest IH]; intros s Hreq Hc; [exact Hc|].
    apply Forall_cons_iff in Hreq as [Hr Hrest]. cbn [fold_left].
    apply IH; [exact Hrest | now apply handle_accepted]. }
  intros Hreq. apply H; [exact Hreq | constructor].
Qed.

(** The cache of a process that has served requests through the engine
    holds no entry under the key of a request for width 0. *)
Lemma zero_width_misses (requests : list Request) (imagePath : string)
                        (settings : Obj) (e : nat) :
  Forall engine_request requests ->
  renderer_shaped settings = true ->
  get settings "outputWidth" = VNum (Fin 0 e) ->
  cache_get (processCache (run requests)) (getCacheKey imagePath settings)
  = None.
Proof.
  intros Hreq Hshape Hzero.
  destruct (cache_get (processCache (run requests))
                      (getCacheKey imagePath settings)) as [v|] eqn:Hget;
    [exfalso | reflexivity].
  apply CacheFacts.cache_get_in in Hget.
  pose proof (run_accepted requests Hreq) as Hacc.
  rewrite Forall_forall in Hacc.
  destruct (Hacc _ Hget) as (p & st & width & Hkey & Hst & Hts & Hpos).
  cbn [fst] in Hkey. symmetry in Hkey.
  exact (zero_width_key_fresh p imagePath st settings width e
                              Hst Hts Hpos Hshape Hzero Hkey).
Qed.

(** The settings the renderer sends keep the first property of the
    constructor's literal. *)
Lemma set_shaped (o : Obj) (k : string) (v : Val) :
  renderer_shaped o = true -> renderer_shaped (set o k v) = true.
Proof.
  destruct o as [|[k0 v0] rest]; [discriminate|]. cbn [set renderer_shaped].
  intros H. destruct (String.eqb k0 k); exact H.
Qed.

Lemma spread_shaped (target src : Obj) :
  renderer_shaped target = true -> renderer_shaped (spread target src) = true.
Proof.
  unfold spread. revert target.
  induction src as [|[k v] rest IH]; intros target H; [exact H|].
  cbn [fold_left]. apply IH. now apply set_shaped.
Qed.

Lemma processingSettings_shaped (app : Renderer.App) :
  renderer_shaped (Renderer.settings app) = true ->
  renderer_shaped (Renderer.processingSettings app) = true.
Proof.
  unfold Renderer.processingSettings.
  destruct (Renderer.settings app) as [|[k v] rest]; [discriminate|].
  intros H. unfold spread. cbn [fold_left fst snd set].
  change (renderer_shaped (spread [(k, v)] rest) = true).
  now apply spread_shaped.
Qed.

(** C5.  A conversion requested with [outputWidth = 0] never returns a
    string: after any run of requests served through the engine, the
    handler finds no cached result for it, stores none, and does not
    resolve; once the engine has been started, the promise is rejected
    with the engine's [InvalidConfigError]. *)
Theorem zero_width_is_rejected (requests : list Request) (w : World)
    (imagePath : string) (settings : Obj) (e : nat) :
  Forall engine_request requests ->
  runs_engine w ->
  renderer_shaped settings = true ->
  get settings "outputWidth" = VNum (Fin 0 e) ->
  let s := run requests in
  (forall text, fst (process_image w s imagePath settings) <> Resolved text)
  /\ processCache (snd (process_image w s imagePath settings)) = processCache s
  /\ (build_args w s imagePath settings <> None ->
      exists message,
        fst (process_image w s imagePath settings) = Rejected message)
  /\ (forall args pid code out err output,
        existsSync w (bridgeScript w) = true ->
        existsSync w imagePath = true ->
        build_args w s imagePath settings = Some args ->
        spawn w (pythonPath s) args = Closed pid code out err output ->
        fst (process_image w s imagePath settings)
        = Rejected ("Python error: " ++ invalid_config_message)).
Proof.
  intros Hreq Hw Hshape Hzero s.
  pose proof (zero_width_misses requests imagePath settings e Hreq Hshape Hzero)
    as Hmiss.
  fold s in Hmiss.
  assert (Hengine : forall args,
             build_args w s imagePath settings = Some args ->
             match spawn w (pythonPath s) args with
             | SpawnError _ => True
             | Closed _ code _ stderr _ =>
                 code <> Some 0%Z /\ stderr = invalid_config_message
             end).
  { intros args Hargs.
    destruct (build_args_width _ _ _ _ _ Hargs) as (width & Hts & Hopt & Hgen).
    apply Hw; [exact Hgen|].
    unfold validate_config. rewrite Hopt.
    rewrite Hzero in Hts. unfold Text.toString_method, Text.to_string in Hts.
    rewrite num_to_string_zero in Hts. injection Hts as <-. reflexivity. }
  unfold process_image, process_image_begin. rewrite Hmiss.
  destruct (existsSync w (bridgeScript w)) eqn:Hb; cbn [negb].
  2:{ cbn [fst snd]. repeat split; try (intros; congruence). eauto. }
  destruct (existsSync w imagePath) eqn:Hi; cbn [negb].
  2:{ cbn [fst snd]. repeat split; try (intros; congruence). eauto. }
  destruct (build_args w s imagePath settings) as [args|] eqn:Hargs.
  2:{ cbn [fst snd]. repeat split; try (intros; congruence). }
  specialize (Hengine args eq_refl).
  destruct (spawn w (pythonPath s) args) as [m|pid code out err output] eqn:Hsp.
  - cbn [fst snd on_error]. repeat split; try (intros; congruence). eauto.
  - destruct Hengine as [Hcode ->]. unfold on_close.
    destruct code as [[|c|c]|]; [now elim Hcode|..];
      cbn [fst snd]; (repeat split; try (intros; congruence)); eauto.
Qed.

End EngineFacts.

(* ------------------------------------------------------------------------- *)
(** ** The statements at sample inputs *)

Module Checks.

Import Js Main Engine.

(** A colour code without parameters the handler knows opens a plain span,
    which is closed at the end. *)
Example ansi_bold :
  Renderer.processAnsiOutput Renderer.decimal_text
    (String Renderer.ESC "[1mY")
  = "<span>Y</span>".
Proof. reflexivity. Qed.

Example ansi_reset_closes :
  Renderer.processAnsiOutput Renderer.decimal_text
    (String Renderer.ESC "[7mA" ++ String Renderer.ESC "[0m"
       ++ String Renderer.LF "B")
  = "<span>A</span><br>B".
Proof. reflexivity. Qed.

Example default_width_converts :
  fst (process_image Sample.engine_world initial_state "cat.png"
                     Renderer.default_settings)
  = Resolved "@#".
Proof. reflexivity. Qed.

Example zero_width_fails :
  process_image Sample.engine_world initial_state "cat.png"
                Sample.zero_width_settings
  = (Rejected
       "Python error: InvalidConfigError: outputWidth must be a positive integer",
     with_store initial_state
       (set_lastSettings (store initial_state) Sample.zero_width_settings)).
Proof. reflexivity. Qed.

Example zero_width_argument :
  option_map (fun args => nth_error args 6)
    (build_args Sample.engine_world initial_state "cat.png"
                Sample.zero_width_settings)
  = Some (Some (VStr "0")).
Proof. reflexivity. Qed.

Example eleventh_result_evicts_first :
  cache_keys
    (fold_left (fun c kv => store_result c (fst kv) (snd kv))
               Sample.eleven_results [])
  = ["k01"; "k02"; "k03"; "k04"; "k05"; "k06"; "k07"; "k08"; "k09"; "k10"].
Proof. reflexivity. Qed.

Lemma engine_world_runs_engine : runs_engine Sample.engine_world.
Proof.
  intros cmd args message Hgen H. cbn [spawn Sample.engine_world].
  rewrite Hgen, H. split; [discriminate | reflexivity].
Qed.

Lemma sample_requests_engine :
  Forall engine_request
         [ProcessImage Sample.engine_world "cat.png" Renderer.default_settings].
Proof.
  constructor; [|constructor].
  split; [exact engine_world_runs_engine | reflexivity].
Qed.

(** A hit returns the stored picture even where the engine would by now
    draw another one. *)
Example hit_returns_stored :
  process_image (Sample.working_world "another picture")
                Sample.after_one_conversion "cat.png" Renderer.default_settings
  = (Resolved "@#", Sample.after_one_conversion).
Proof. reflexivity. Qed.

Lemma process_image_cache_hit_witness :
  cache_get (processCache Sample.after_one_conversion)
            (getCacheKey "cat.png" Renderer.default_settings) = Some "@#"
  /\ process_image_begin Sample.bare_world Sample.after_one_conversion
                         "cat.png" Renderer.default_settings
     = Settled (Resolved "@#") Sample.after_one_conversion.
Proof.
  split; [reflexivity|].
  exact (proj1 (HandlerFacts.process_image_cache_hit
                  Sample.bare_world Sample.after_one_conversion "cat.png"
                  Renderer.default_settings "@#" eq_refl)).
Defined.

Lemma cache_keeps_ten_newest_witness :
  List.length (tl Sample.eleven_results) = 10
  /\ distinct (cache_keys Sample.eleven_results) = true
  /\ cache_get
       (processCache
          (fold_left
             (fun s kv => snd (on_close (mkRunning (fst kv) None) (Some 0%Z) ""
                                        (ReadOk (snd kv)) s))
             Sample.eleven_results initial_state))
       "k00" = None.
Proof.
  split; [reflexivity|]. split; [reflexivity|].
  exact (proj1 (HandlerFacts.cache_keeps_ten_newest
                  "k00" "r00" (tl Sample.eleven_results) initial_state
                  eq_refl eq_refl eq_refl)).
Defined.

Lemma process_image_failure_atomic_witness :
  cache_get (processCache initial_state)
            (getCacheKey "cat.png" Renderer.default_settings) = None
  /\ existsSync Sample.bare_world (bridgeScript Sample.bare_world) = false
  /\ exists message,
       fst (process_image Sample.bare_world initial_state "cat.png"
                          Renderer.default_settings) = Rejected message
       /\ names_failure message = true
       /\ processCache (snd (process_image Sample.bare_world initial_state
                                           "cat.png" Renderer.default_settings))
          = processCache initial_state.
Proof.
  split; [reflexivity|]. split; [reflexivity|].
  exact (HandlerFacts.process_image_failure_atomic
           Sample.bare_world initial_state "cat.png" Renderer.default_settings
           eq_refl (or_introl eq_refl)).
Defined.

Lemma zero_width_is_rejected_witness :
  renderer_shaped Sample.zero_width_settings = true
  /\ get Sample.zero_width_settings "outputWidth" = VNum (Fin 0 0)
  /\ forall text,
       fst (process_image Sample.engine_world Sample.after_one_conversion
                          "cat.png" Sample.zero_width_settings)
       <> Resolved text.
Proof.
  split; [reflexivity|]. split; [reflexivity|].
  exact (proj1 (EngineFacts.zero_width_is_rejected
                  [ProcessImage Sample.engine_world "cat.png"
                                Renderer.default_settings]
                  Sample.engine_world "cat.png" Sample.zero_width_settings 0
                  sample_requests_engine
                  engine_world_runs_engine eq_refl eq_refl)).
Defined.

End Checks.

(* ------------------------------------------------------------------------- *)
(** ** More on the main process *)

Module MainMoreFacts.

Import Js Main Interpreter CacheFacts.

Local Open Scope list_scope.

(** *** The cache over any run of requests *)

Lemma cache_set_keys (c : Cache) (k v : string) :
  cache_keys (cache_set c k v)
  = if cache_has c k then cache_keys c else cache_keys c ++ [k].
Proof.
  unfold cache_has. induction c as [|[k' v'] rest IH]; simpl; [reflexivity|].
  destruct (String.eqb k' k) eqn:E; simpl; [reflexivity|].
  rewrite IH. destruct (cache_get rest k); reflexivity.
Qed.

Lemma cache_set_nodup (c : Cache) (k v : string) :
  NoDup (cache_keys c) -> NoDup (cache_keys (cache_set c k v)).
Proof.
  intros H. rewrite cache_set_keys. unfold cache_has.
  destruct (cache_get c k) eqn:E; [exact H|].
  apply cache_get_none in E.
  apply NoDup_app; [exact H | repeat constructor; simpl; tauto |].
  intros x Hx [Hk | []]. subst x. exact (E Hx).
Qed.

Lemma store_result_nodup (c : Cache) (k v : string) :
  NoDup (cache_keys c) -> NoDup (cache_keys (store_result c k v)).
Proof.
  intros H. unfold store_result. rewrite limit_cache_skipn.
  unfold cache_keys. rewrite <- skipn_map.
  apply (cache_set_nodup c k v) in H. unfold cache_keys in H.
  rewrite <- (firstn_skipn (List.length (cache_set c k v) - 10)
                           (map fst (cache_set c k v))) in H.
  now apply NoDup_app_remove_l in H.
Qed.

Lemma process_image_nodup (w : World) (s : State) (imagePath : string)
                          (settings : Obj) :
  NoDup (cache_keys (processCache s)) ->
  NoDup (cache_keys (processCache (snd (process_image w s imagePath settings)))).
Proof.
  intros H. unfold process_image, process_image_begin.
  destruct (cache_get (processCache s) (getCacheKey imagePath settings));
    [exact H|].
  destruct (negb (existsSync w (bridgeScript w))); [exact H|].
  destruct (negb (existsSync w imagePath)); [exact H|].
  destruct (build_args w s imagePath settings) as [args|]; [|exact H].
  destruct (spawn w (pythonPath s) args) as [m|pid code out err output];
    [exact H|].
  unfold on_close.
  destruct code as [[|c|c]|]; [destruct output as [content|m]|..];
    try exact H.
  cbn [snd processCache with_cache with_processes with_store].
  now apply store_result_nodup.
Qed.

(** X1.  Whatever requests the process has served, its cache holds at most
    ten entries and no key twice. *)
Theorem run_cache_invariant (requests : list Request) :
  List.length (processCache (run requests)) <= 10
  /\ NoDup (cache_keys (processCache (run requests))).
Proof.
  unfold run.
  assert (H : forall s,
             List.length (processCache s) <= 10
             /\ NoDup (cache_keys (processCache s)) ->
             List.length (processCache (fold_left handle requests s)) <= 10
             /\ NoDup (cache_keys (processCache (fold_left handle requests s)))).
  { induction requests as [|r rest IH]; intros s Hs; [exact Hs|].
    cbn [fold_left]. apply IH. destruct Hs as [Hlen Hnd].
    destruct r as [w p st|w|w p| | | |]; cbn [handle].
    - split; [now apply HandlerFacts.process_image_cache_bound
             | now apply process_image_nodup].
    - rewrite HandlerFacts.get_character_presets_state. now split.
    - rewrite HandlerFacts.suggest_optimal_settings_state. now split.
    - simpl. split; [lia | constructor].
    - now split.
    - now split.
    - now split. }
  apply H. simpl. split; [lia | constructor].
Qed.

(** X2.  From an empty cache, completions under distinct keys leave
    exactly the last ten results, oldest first, however many there were. *)
Theorem cache_holds_last_ten (kvs : list (string * string)) (s0 : State) :
  distinct (cache_keys kvs) = true ->
  processCache s0 = [] ->
  processCache
    (fold_left (fun s kv => snd (on_close (mkRunning (fst kv) None) (Some 0%Z) ""
                                          (ReadOk (snd kv)) s)) kvs s0)
  = skipn (List.length kvs - 10) kvs.
Proof.
  intros Hd Hempty. apply distinct_NoDup in Hd.
  rewrite HandlerFacts.finished_cache, Hempty.
  rewrite store_results_distinct; [reflexivity | simpl; lia | exact Hd].
Qed.

(** X3.  A result stored under a key the cache already holds takes the
    place of the old one: the order of the keys, hence the order of
    eviction, is that of first insertion. *)
Theorem restore_keeps_place (r : Running) (stderr content old : string)
                            (s : State) :
  cache_get (processCache s) (run_key r) = Some old ->
  List.length (processCache s) <= 10 ->
  let s' := snd (on_close r (Some 0%Z) stderr (ReadOk content) s) in
  cache_keys (processCache s') = cache_keys (processCache s)
  /\ cache_get (processCache s') (run_key r) = Some content
  /\ forall k, k <> run_key r ->
               cache_get (processCache s') k = cache_get (processCache s) k.
Proof.
  intros Hold Hlen s'. subst s'. rewrite HandlerFacts.on_close_success.
  cbn [snd processCache with_cache with_processes].
  assert (Hkeys : cache_keys (cache_set (processCache s) (run_key r) content)
                  = cache_keys (processCache s)).
  { rewrite cache_set_keys. unfold cache_has. now rewrite Hold. }
  assert (Hsame : store_result (processCache s) (run_key r) content
                  = cache_set (processCache s) (run_key r) content).
  { unfold store_result. rewrite limit_cache_skipn.
    assert (Hl : List.length (cache_set (processCache s) (run_key r) content)
                 = List.length (processCache s)).
    { rewrite <- (length_map fst), <- (length_map fst (processCache s)).
      exact (f_equal (@List.length string) Hkeys). }
    rewrite Hl. replace (List.length (processCache s) - 10) with 0 by lia.
    reflexivity. }
  rewrite Hsame. split; [exact Hkeys|]. split.
  - apply cache_get_set_same.
  - intros k Hk. apply cache_get_set_other. congruence.
Qed.

(** *** What a conversion request does besides converting *)

Lemma toString_method_none (v : Val) :
  Text.toString_method v = None <-> nullish v = true.
Proof. destruct v; simpl; split; congruence. Qed.

Lemma toString_method_some (v : Val) (t : string) :
  Text.toString_method v = Some t -> nullish v = false.
Proof. destruct v; simpl; congruence. Qed.

(** The arguments cannot be built exactly when one of the ten numeric
    settings is [undefined] or [null]. *)
Lemma build_args_none (w : World) (s : State) (imagePath : string)
                      (settings : Obj) :
  build_args w s imagePath settings = None
  <-> existsb (fun k => nullish (get settings k)) numeric_keys = true.
Proof.
  unfold build_args, bind, numeric_keys. cbn [existsb].
  repeat match goal with
         | |- context [Text.toString_method (get settings ?k)] =>
             let H := fresh "H" in
             destruct (Text.toString_method (get settings k)) eqn:H;
               [apply toString_method_some in H; rewrite H; cbn [orb]
               |apply toString_method_none in H; rewrite H;
                rewrite ?orb_true_r; split; reflexivity]
         end.
  split; discriminate.
Qed.

Ltac open_request w s imagePath settings :=
  unfold process_image, process_image_begin, starts_child, cache_has;
  destruct (cache_get (processCache s) (getCacheKey imagePath settings))
    as [cached|] eqn:Hget;
  [|destruct (existsSync w (bridgeScript w)) eqn:Hbridge;
    [destruct (existsSync w imagePath) eqn:Himage;
     [destruct (build_args w s imagePath settings) as [args|] eqn:Hargs;
      [assert (Hnum : existsb (fun k => nullish (get settings k)) numeric_keys
                      = false)
         by (destruct (existsb (fun k => nullish (get settings k)) numeric_keys)
               eqn:E;
             [apply (proj2 (build_args_none w s imagePath settings)) in E;
              congruence
             |reflexivity]);
       destruct (spawn w (pythonPath s) args) as [m|pid code out err output]
         eqn:Hspawn;
       [|unfold on_close;
         destruct code as [[|c|c]|]; [destruct output as [content|m]|..]]
      |assert (Hnum : existsb (fun k => nullish (get settings k)) numeric_keys
                      = true)
         by exact (proj1 (build_args_none w s imagePath settings) Hargs)]
     |]
    |]];
  cbn [negb andb fst snd].

(** X4.  The promise of a conversion is left unsettled exactly when the
    request misses the cache, the bridge script and the image exist, and one
    of the ten numeric settings is [undefined] or [null]; the state of the
    process is then as before. *)
Theorem process_image_unsettled (w : World) (s : State) (imagePath : string)
                                (settings : Obj) :
  (fst (process_image w s imagePath settings) = Unsettled
   <-> cache_get (processCache s) (getCacheKey imagePath settings) = None
       /\ existsSync w (bridgeScript w) = true
       /\ existsSync w imagePath = true
       /\ existsb (fun k => nullish (get settings k)) numeric_keys = true)
  /\ (fst (process_image w s imagePath settings) = Unsettled ->
      snd (process_image w s imagePath settings) = s).
Proof.
  open_request w s imagePath settings;
    (split; [split; [discriminate || tauto | intros (H1 & H2 & H3 & H4); congruence]
            | discriminate || reflexivity]).
Qed.

(** X5.  The stored last settings are overwritten with the request's
    settings exactly when the handler spawns a child, whether the
    conversion then succeeds or fails; otherwise the store is as before. *)
Theorem process_image_store (w : World) (s : State) (imagePath : string)
                            (settings : Obj) :
  store (snd (process_image w s imagePath settings))
  = if starts_child w s imagePath settings
    then set_lastSettings (store s) settings
    else store s.
Proof.
  open_request w s imagePath settings; try rewrite Hnum; reflexivity.
Qed.

Lemma pid_eqb_refl (p : option N) : pid_eqb p p = true.
Proof. destruct p as [n|]; simpl; [apply N.eqb_refl | reflexivity]. Qed.

Lemma delete_added (ps : list (option N)) (p q : option N) :
  In q (delete_process (add_process ps p) p) -> In q ps.
Proof.
  unfold delete_process, add_process. intros H.
  apply filter_In in H as [H Hq].
  destruct (existsb (pid_eqb p) ps); [exact H|].
  apply in_app_or in H as [H | [H | []]]; [exact H|].
  subst q. rewrite pid_eqb_refl in Hq. discriminate Hq.
Qed.

(** X6.  A conversion leaves no process behind in [activeProcesses]: every
    pid tracked after the request was tracked before it, and the pid of the
    child it spawned is not among them. *)
Theorem process_image_tracks_nothing (w : World) (s : State)
                                     (imagePath : string) (settings : Obj) :
  incl (activeProcesses (snd (process_image w s imagePath settings)))
       (activeProcesses s)
  /\ forall child r s1,
       process_image_begin w s imagePath settings = Started child r s1 ->
       ~ In (child_pid child)
            (activeProcesses (snd (process_image w s imagePath settings))).
Proof.
  split.
  - open_request w s imagePath settings; intros q Hq; try exact Hq;
      cbn [activeProcesses with_cache with_processes with_store on_error snd]
        in Hq;
      now apply delete_added in Hq.
  - intros child r s1. unfold process_image. intros Hb. rewrite Hb.
    unfold process_image_begin in Hb.
    destruct (cache_get (processCache s) (getCacheKey imagePath settings));
      [discriminate|].
    destruct (negb (existsSync w (bridgeScript w))); [discriminate|].
    destruct (negb (existsSync w imagePath)); [discriminate|].
    destruct (build_args w s imagePath settings) as [args|]; [|discriminate].
    injection Hb as <- <- <-.
    assert (Hdel : forall ps p, ~ In p (delete_process ps p)).
    { intros ps p H. apply filter_In in H as [_ H].
      rewrite pid_eqb_refl in H. discriminate H. }
    destruct (spawn w (pythonPath s) args) as [m|pid code out err output].
    + apply Hdel.
    + unfold on_close.
      destruct code as [[|c|c]|]; [destruct output as [content|m]|..];
        apply Hdel.
Qed.


(** X8.  The command line depends on the settings through sixteen
    properties only: two settings objects that agree on them give the same
    arguments, so fonts, colours, auto-fit and any other property never
    reach the engine. *)
Theorem build_args_reads_processing_keys (w : World) (s : State)
    (imagePath : string) (st st' : Obj) :
  Forall (fun k => get st k = get st' k) processing_keys ->
  build_args w s imagePath st = build_args w s imagePath st'.
Proof.
  intros H. unfold processing_keys, numeric_keys in H. cbn [app] in H.
  repeat match goal with
         | Hf : Forall _ (_ :: _) |- _ =>
             let Hk := fresh "Hk" in
             apply Forall_cons_iff in Hf as [Hk Hf]
         end.
  unfold build_args.
  rewrite Hk, Hk0, Hk1, Hk2, Hk3, Hk4, Hk5, Hk6, Hk7, Hk8, Hk9, Hk10, Hk11,
          Hk12, Hk13, Hk14.
  reflexivity.
Qed.

(** *** Finding the interpreter *)

(** X9.  [detectPythonPath] either returns a path that passes the test,
    and then that path is the one conversions spawn; or it returns
    [python] although that failed the test, and then it has left the store
    as it was, a stored path that no longer works included. *)
Theorem detectPythonPath_result (h : Host) (w : World) (s : State) :
  let r := detectPythonPath h w s in
  (testPythonPath h (fst r) = true /\ pythonPath (snd r) = fst r)
  \/ (testPythonPath h (fst r) = false /\ fst r = "python" /\ snd r = s).
Proof.
  cbv zeta. unfold detectPythonPath.
  assert (Hsearch :
    let r :=
      match find (testPythonPath h) pythonCommands with
      | Some cmd => (cmd, set_systemPythonPath s cmd)
      | None =>
          match find (fun p => existsSync w p && testPythonPath h p)
                     (if String.eqb (platform h) "win32"
                      then winPaths else unixPaths) with
          | Some p => (p, set_systemPythonPath s p)
          | None => ("python", s)
          end
      end in
    (testPythonPath h (fst r) = true /\ pythonPath (snd r) = fst r)
    \/ (testPythonPath h (fst r) = false /\ fst r = "python" /\ snd r = s)).
  { cbv zeta.
    destruct (find (testPythonPath h) pythonCommands) as [cmd|] eqn:Hc.
    - apply find_some in Hc as [_ Hc]. left. split; [exact Hc | reflexivity].
    - destruct (find (fun p => existsSync w p && testPythonPath h p)
                     (if String.eqb (platform h) "win32"
                      then winPaths else unixPaths)) as [p|] eqn:Hp.
      + apply find_some in Hp as [_ Hp]. apply andb_true_iff in Hp as [_ Hp].
        left. split; [exact Hp | reflexivity].
      + right. split; [|split; reflexivity].
        apply (find_none _ _ Hc). simpl. tauto. }
  destruct (systemPythonPath (store s)) as [storedPath|] eqn:Hst;
    [|exact Hsearch].
  destruct (negb (String.eqb storedPath "") && testPythonPath h storedPath)
    eqn:Hok; [|exact Hsearch].
  apply andb_true_iff in Hok as [_ Hok]. left. split; [exact Hok|].
  unfold pythonPath. cbn [snd fst]. now rewrite Hst.
Qed.

End MainMoreFacts.

(* ------------------------------------------------------------------------- *)
(** ** More on objects: keys and spreading *)

Module ObjFacts.

Import Js JsFacts Page.

Local Open Scope list_scope.

Lemma get_not_in (o : Obj) (k : string) :
  ~ In k (keys o) -> get o k = VUndefined.
Proof.
  induction o as [|[k' v'] rest IH]; simpl; [reflexivity|].
  intros H. destruct (String.eqb k' k) eqn:E.
  - apply String.eqb_eq in E. exfalso. apply H. now left.
  - apply IH. intros Hin. apply H. now right.
Qed.

Lemma get_in (o : Obj) (k : string) (v : Val) :
  NoDup (keys o) -> In (k, v) o -> get o k = v.
Proof.
  induction o as [|[k' v'] rest IH]; simpl; [tauto|].
  intros Hnd [H | H].
  - injection H as -> ->. now rewrite String.eqb_refl.
  - apply NoDup_cons_iff in Hnd as [Hnot Hnd].
    destruct (String.eqb k' k) eqn:E; [|auto].
    apply String.eqb_eq in E; subst k'. exfalso. apply Hnot.
    change k with (fst (k, v)). now apply in_map.
Qed.



Lemma spread_cons (target : Obj) (k : string) (v : Val) (rest : Obj) :
  spread target ((k, v) :: rest) = spread (set target k v) rest.
Proof. reflexivity. Qed.


Lemma get_spread_not_in (target src : Obj) (k : string) :
  ~ In k (keys src) -> get (spread target src) k = get target k.
Proof.
  revert target.
  induction src as [|[k0 v0] rest IH]; intros target H; [reflexivity|].
  rewrite spread_cons. simpl in H. rewrite IH by tauto.
  apply get_set_other. intros ->. apply H. now left.
Qed.

Lemma get_spread_in (target src : Obj) (k : string) (v : Val) :
  NoDup (keys src) -> In (k, v) src -> get (spread target src) k = v.
Proof.
  revert target.
  induction src as [|[k0 v0] rest IH]; intros target Hnd Hin; [destruct Hin|].
  rewrite spread_cons. simpl in Hnd.
  apply NoDup_cons_iff in Hnd as [Hnot Hnd].
  destruct Hin as [Hin | Hin].
  - injection Hin as -> ->.
    rewrite (get_spread_not_in (set target k v) rest k Hnot).
    apply get_set_same.
  - now apply IH.
Qed.

(** A copy of an object reads as the object. *)
Lemma get_copy (o : Obj) (k : string) :
  NoDup (keys o) -> get (spread [] o) k = get o k.
Proof.
  intros Hnd. destruct (in_dec string_dec k (keys o)) as [Hin | Hout].
  - apply in_map_iff in Hin as [[k' v] [Hk Hin]]. simpl in Hk. subst k'.
    now rewrite (get_spread_in [] o k v Hnd Hin), (get_in o k v Hnd Hin).
  - now rewrite (get_spread_not_in [] o k Hout), (get_not_in o k Hout).
Qed.







End ObjFacts.

(* ------------------------------------------------------------------------- *)
(** ** More on the renderer: settings, presets, zoom *)

Module PageFacts.

Import Js JsFacts Renderer Page Session ObjFacts.

Local Open Scope list_scope.

Lemma applyPreset_settings (a : App) (p : Obj) :
  exists a',
    applyPreset (Some a) (Some p) = Some a'
    /\ settings a'
       = spread (spread (spread [] (settings a)) p)
           [ ("fontFamily", get (settings a) "fontFamily");
             ("fontSize", get (settings a) "fontSize");
             ("autoFit", get (settings a) "autoFit");
             ("bgColor", get (settings a) "bgColor");
             ("textColor", get (settings a) "textColor") ].
Proof. eexists. split; reflexivity. Qed.




(** X11.  Loading saved settings lays them over the current ones: a saved
    property reads as it was saved, and a property that was not saved keeps
    its current value. *)
Theorem loadSettings_merges (a : App) (reply : Interpreter.SettingsReply) :
  Main.distinct (keys (settings a)) = true ->
  Main.distinct (keys (Interpreter.reply_lastSettings reply)) = true ->
  (forall k v, In (k, v) (Interpreter.reply_lastSettings reply) ->
               get (settings (loadSettings a reply)) k = v)
  /\ (forall k, ~ In k (keys (Interpreter.reply_lastSettings reply)) ->
                get (settings (loadSettings a reply)) k = get (settings a) k).
Proof.
  intros Ha Hl. apply CacheFacts.distinct_NoDup in Ha, Hl.
  unfold loadSettings. cbn [settings with_settings]. split.
  - intros k v Hin. now apply get_spread_in.
  - intros k Hout. rewrite get_spread_not_in by exact Hout.
    now apply get_copy.
Qed.

(** What a preset changes (the display settings it does not change are
    C9's). *)
Lemma preset_effect (cur p : Obj) (ff fs af bg tc : Val) :
  NoDup (keys cur) -> NoDup (keys p) ->
  let after := spread (spread (spread [] cur) p)
                 [ ("fontFamily", ff); ("fontSize", fs); ("autoFit", af);
                   ("bgColor", bg); ("textColor", tc) ] in
  (forall k v, In (k, v) p -> ~ In k display_keys -> get after k = v)
  /\ (forall k, ~ In k (keys p) -> ~ In k display_keys ->
                get after k = get cur k).
Proof.
  intros Hc Hp after. subst after. split.
  - intros k v Hin Hd. rewrite get_spread_not_in by exact Hd.
    now apply get_spread_in.
  - intros k Hk Hd. rewrite get_spread_not_in by exact Hd.
    rewrite get_spread_not_in by exact Hk. now apply get_copy.
Qed.

(** X12.  Applying a preset object sets every property of the preset that
    is not a display setting to the preset's value and leaves every other
    property that is not a display setting as it was. *)
Theorem applyPreset_effect (a : App) (p : Obj) :
  Main.distinct (keys (settings a)) = true ->
  Main.distinct (keys p) = true ->
  exists a',
    applyPreset (Some a) (Some p) = Some a'
    /\ (forall k v, In (k, v) p -> ~ In k display_keys ->
                    get (settings a') k = v)
    /\ (forall k, ~ In k (keys p) -> ~ In k display_keys ->
                  get (settings a') k = get (settings a) k).
Proof.
  intros Ha Hp. apply CacheFacts.distinct_NoDup in Ha, Hp.
  destruct (applyPreset_settings a p) as (a' & Hap & Hs).
  exists a'. split; [exact Hap|]. rewrite Hs.
  exact (preset_effect (settings a) p _ _ _ _ _ Ha Hp).
Qed.

End PageFacts.

(* ------------------------------------------------------------------------- *)
(** ** More on the presets of the settings page *)

Module PresetFacts.

Import Js JsFacts Renderer Page Session ObjFacts.

Local Open Scope list_scope.

Lemma presets_get_set (ps : Presets) (name : string) (p : Obj) :
  presets_get (presets_set ps name p) name = Some p.
Proof.
  induction ps as [|[n q] rest IH]; simpl.
  - now rewrite String.eqb_refl.
  - destruct (String.eqb n name) eqn:E; simpl; rewrite E; [reflexivity|exact IH].
Qed.

Lemma presets_get_set_other (ps : Presets) (name other : string) (p : Obj) :
  other <> name ->
  presets_get (presets_set ps name p) other = presets_get ps other.
Proof.
  intros Hne. induction ps as [|[n q] rest IH]; simpl.
  - destruct (String.eqb name other) eqn:E; [|reflexivity].
    apply String.eqb_eq in E. congruence.
  - destruct (String.eqb n name) eqn:E; simpl.
    + apply String.eqb_eq in E. subst n.
      destruct (String.eqb name other) eqn:E'; [|reflexivity].
      apply String.eqb_eq in E'. congruence.
    + now rewrite IH.
Qed.

Lemma customPreset_keys (st : Obj) : keys (customPreset st) = saved_keys.
Proof. reflexivity. Qed.

Lemma customPreset_in (st : Obj) (k : string) :
  In k saved_keys -> In (k, get st k) (customPreset st).
Proof.
  intros H. unfold customPreset.
  apply in_map_iff. now exists k.
Qed.

Lemma saved_keys_distinct : NoDup saved_keys.
Proof. apply CacheFacts.distinct_NoDup. reflexivity. Qed.

Lemma display_keys_not_saved (k : string) :
  In k display_keys -> ~ In k saved_keys.
Proof.
  intros H. simpl in H.
  repeat (destruct H as [<-|H];
          [intros Hs; simpl in Hs;
           repeat (destruct Hs as [Hs|Hs]; [discriminate Hs|]); exact Hs|]).
  destruct H.
Qed.

(** A preset whose keys are the sixteen processing settings, applied over
    [cur]. *)
Lemma processing_preset_effect (cur p : Obj) :
  NoDup (keys cur) -> keys p = saved_keys ->
  let after := spread (spread (spread [] cur) p)
                 [ ("fontFamily", get cur "fontFamily");
                   ("fontSize", get cur "fontSize");
                   ("autoFit", get cur "autoFit");
                   ("bgColor", get cur "bgColor");
                   ("textColor", get cur "textColor") ] in
  (forall k, In k saved_keys -> get after k = get p k)
  /\ (forall k, ~ In k saved_keys -> get after k = get cur k).
Proof.
  intros Hc Hk after. subst after.
  assert (Hp : NoDup (keys p)) by (rewrite Hk; exact saved_keys_distinct).
  split.
  - intros k Hin.
    rewrite get_spread_not_in.
    + rewrite <- Hk in Hin. apply in_map_iff in Hin as [[k' v] [Hfst Hin]].
      simpl in Hfst. subst k'.
      now rewrite (get_spread_in _ p k v Hp Hin), (get_in p k v Hp Hin).
    + intros Hd. exact (display_keys_not_saved k Hd Hin).
  - intros k Hout.
    destruct (in_dec string_dec k display_keys) as [Hd|Hd].
    + simpl in Hd.
      repeat (destruct Hd as [<-|Hd];
              [apply get_spread_in;
               [apply CacheFacts.distinct_NoDup; reflexivity|simpl; tauto]|]).
      destruct Hd.
    + rewrite get_spread_not_in by exact Hd.
      rewrite get_spread_not_in by (rewrite Hk; exact Hout).
      now apply get_copy.
Qed.



(** X14.  A preset saved under a name is found again under the lowercased
    name, whatever preset that name held before: choosing it later puts
    back the sixteen processing settings as they were when it was saved and
    leaves every other setting as it is at that later time.  Each save adds
    one option to the dropdown. *)
Theorem saved_preset_restores (toLowerCase : string -> string)
    (pp : PresetPage) (a later : App) (presetName : string) :
  window_app pp = Some a ->
  String.eqb presetName "" = false ->
  String.eqb (toLowerCase presetName) "" = false ->
  Main.distinct (keys (settings later)) = true ->
  let saved := saveCustomPreset toLowerCase pp (Some presetName) in
  let chosen :=
    choosePreset (mkPresetPage (Some later) (presets saved) (options saved))
                 (toLowerCase presetName) in
  (exists a',
     window_app chosen = Some a'
     /\ (forall k, In k saved_keys ->
                   get (settings a') k = get (settings a) k)
     /\ (forall k, ~ In k saved_keys ->
                   get (settings a') k = get (settings later) k))
  /\ (forall os, options pp = Some os ->
        exists os', options saved = Some os'
                    /\ List.length os' = S (List.length os)).
Proof.
  intros Hwin Hne Hlow Hd saved chosen.
  apply CacheFacts.distinct_NoDup in Hd.
  assert (Hsaved : presets saved
                   = presets_set (presets pp) (toLowerCase presetName)
                       (customPreset (settings a))
                   /\ options saved
                      = match options pp with
                        | Some os =>
                            Some (os ++ [(toLowerCase presetName,
                                          (presetName ++ " (Custom)")%string)])
                        | None => None
                        end).
  { subst saved. unfold saveCustomPreset. rewrite Hwin.
    rewrite Hne. split; reflexivity. }
  destruct Hsaved as [Hps Hos]. split.
  - subst chosen. unfold choosePreset.
    rewrite Hlow.
    cbn [presets window_app options]. rewrite Hps, presets_get_set.
    destruct (PageFacts.applyPreset_settings later (customPreset (settings a)))
      as (a' & Hap & Hs).
    exists a'. cbn [window_app]. split; [exact Hap|]. rewrite Hs.
    destruct (processing_preset_effect (settings later)
                (customPreset (settings a)) Hd (customPreset_keys _))
      as [H1 H2].
    split; [|exact H2].
    intros k Hin. rewrite (H1 k Hin).
    apply get_in; [exact saved_keys_distinct|now apply customPreset_in].
  - intros os Hsome. rewrite Hos, Hsome. eexists. split; [reflexivity|].
    rewrite length_app. simpl. lia.
Qed.

End PresetFacts.

(* ------------------------------------------------------------------------- *)
(** ** Zoom and the classes of the output container *)

Module ZoomFacts.

Import Js Renderer Page Session.

Local Open Scope list_scope.

Lemma app_applyZoom (pg : Page) : app (applyZoom pg) = app pg.
Proof.
  unfold applyZoom, applyAutoFit.
  destruct (truthy (get (settings (app pg)) "autoFit")); [|reflexivity].
  cbn [app]. destruct (has_output (app pg)); reflexivity.
Qed.

Lemma container_applyZoom (pg : Page) :
  container (applyZoom pg)
  = class_add (fold_left class_remove zoom_classes (container pg))
      ("zoom-" ++ Text.digits (zoomLevel (app pg)))%string.
Proof.
  unfold applyZoom, applyAutoFit.
  destruct (truthy (get (settings (app pg)) "autoFit")); [|reflexivity].
  cbn [app]. destruct (has_output (app pg)); reflexivity.
Qed.

Lemma zoomIn_level (pg : Page) :
  zoomLevel (app (zoomIn pg))
  = let i := indexOf (zoomLevel (app pg)) levels in
    if Z.ltb i (Z.of_nat (List.length levels) - 1)
    then nth (Z.to_nat (i + 1)) levels 0%N
    else zoomLevel (app pg).
Proof.
  unfold zoomIn. cbv zeta.
  destruct (Z.ltb _ _); [|reflexivity].
  now rewrite app_applyZoom.
Qed.

Lemma zoomOut_level (pg : Page) :
  zoomLevel (app (zoomOut pg))
  = let i := indexOf (zoomLevel (app pg)) levels in
    if Z.ltb 0 i
    then nth (Z.to_nat (i - 1)) levels 0%N
    else zoomLevel (app pg).
Proof.
  unfold zoomOut. cbv zeta.
  destruct (Z.ltb _ _); [|reflexivity].
  now rewrite app_applyZoom.
Qed.

Lemma resetZoom_level (pg : Page) : zoomLevel (app (resetZoom pg)) = 100%N.
Proof. unfold resetZoom. now rewrite app_applyZoom. Qed.

Lemma press_on_scale (pg : Page) (b : ZoomButton) :
  In (zoomLevel (app pg)) levels -> In (zoomLevel (app (press pg b))) levels.
Proof.
  intros H. destruct b; cbn [press].
  - rewrite zoomIn_level. simpl in H.
    repeat (destruct H as [<-|H]; [vm_compute; tauto|]). destruct H.
  - rewrite zoomOut_level. simpl in H.
    repeat (destruct H as [<-|H]; [vm_compute; tauto|]). destruct H.
  - rewrite resetZoom_level. vm_compute. tauto.
Qed.

(** X15.  Whatever zoom buttons are pressed, the zoom level stays one of
    the six levels of the scale, so between 50 and 200. *)
Theorem zoom_stays_on_scale (pg : Page) (buttons : list ZoomButton) :
  In (zoomLevel (app pg)) levels ->
  let z := zoomLevel (app (fold_left press buttons pg)) in
  In z levels /\ (50 <= z <= 200)%N.
Proof.
  intros H. cbv zeta.
  assert (Hin : In (zoomLevel (app (fold_left press buttons pg))) levels).
  { revert pg H. induction buttons as [|b rest IH]; intros pg H; [exact H|].
    cbn [fold_left]. apply IH. now apply press_on_scale. }
  split; [exact Hin|]. simpl in Hin.
  repeat (destruct Hin as [<-|Hin]; [lia|]). destruct Hin.
Qed.

(** X16.  Zooming out undoes zooming in, except at the top of the scale,
    where zooming in changes nothing at all; and zooming out changes
    nothing at the bottom. *)
Theorem zoomOut_undoes_zoomIn (pg : Page) :
  In (zoomLevel (app pg)) levels ->
  (zoomLevel (app pg) <> 200%N ->
   zoomLevel (app (zoomOut (zoomIn pg))) = zoomLevel (app pg))
  /\ (zoomLevel (app pg) = 200%N -> zoomIn pg = pg)
  /\ (zoomLevel (app pg) = 50%N -> zoomOut pg = pg).
Proof.
  intros H. split; [|split].
  - intros Hne. rewrite zoomOut_level, zoomIn_level. simpl in H.
    repeat (destruct H as [E|H];
            [rewrite <- E in *; try reflexivity; now elim Hne|]).
    destruct H.
  - intros E. unfold zoomIn. now rewrite E.
  - intros E. unfold zoomOut. now rewrite E.
Qed.

(** The zoom classes among the classes of an element. *)
Lemma filter_true {A : Type} (l : list A) : filter (fun _ => true) l = l.
Proof. induction l as [|x l IH]; simpl; [reflexivity|now rewrite IH]. Qed.

Lemma remove_all (cs cls : list string) :
  fold_left class_remove cs cls
  = filter (fun x => negb (existsb (fun c => String.eqb c x) cs)) cls.
Proof.
  revert cls. induction cs as [|c cs IH]; intros cls; cbn [fold_left].
  - simpl. now rewrite filter_true.
  - rewrite IH. unfold class_remove.
    induction cls as [|x cls IHc]; simpl; [reflexivity|].
    destruct (String.eqb c x); simpl; [exact IHc|].
    destruct (existsb (fun c0 => String.eqb c0 x) cs); simpl;
      [exact IHc|now rewrite IHc].
Qed.

Section Classes.

Variable P : string -> bool.

Lemma filter_out_none (l : list string) :
  filter P (filter (fun x => negb (P x)) l) = [].
Proof.
  induction l as [|x l IH]; simpl; [reflexivity|].
  destruct (P x) eqn:E; simpl; [exact IH|]. now rewrite E.
Qed.

Lemma filter_out_twice (l : list string) :
  filter (fun x => negb (P x)) (filter (fun x => negb (P x)) l)
  = filter (fun x => negb (P x)) l.
Proof.
  induction l as [|x l IH]; simpl; [reflexivity|].
  destruct (P x) eqn:E; simpl; [exact IH|]. rewrite E. simpl. now rewrite IH.
Qed.

Lemma none_absent (l : list string) (c : string) :
  filter P l = [] -> P c = true -> existsb (String.eqb c) l = false.
Proof.
  intros Hl Hc. induction l as [|x l IH]; simpl; [reflexivity|].
  simpl in Hl. destruct (P x) eqn:E; [discriminate Hl|].
  rewrite (IH Hl), orb_false_r.
  apply String.eqb_neq. intros ->. congruence.
Qed.

Lemma none_add (l : list string) (c : string) :
  filter P l = [] -> P c = false -> filter P (class_add l c) = [].
Proof.
  intros Hl Hc. unfold class_add.
  destruct (existsb (String.eqb c) l); [exact Hl|].
  rewrite filter_app, Hl. simpl. now rewrite Hc.
Qed.

Lemma none_remove (l : list string) (c : string) :
  filter P l = [] -> filter P (class_remove l c) = [].
Proof.
  intros Hl. unfold class_remove.
  induction l as [|x l IH]; simpl; [reflexivity|].
  simpl in Hl. destruct (P x) eqn:E; [discriminate Hl|].
  destruct (String.eqb c x); simpl; [now apply IH|].
  rewrite E. now apply IH.
Qed.

Lemma none_toggle (l : list string) (c : string) (force : Val) :
  filter P l = [] -> P c = false -> filter P (class_toggle l c force) = [].
Proof.
  intros Hl Hc. unfold class_toggle.
  destruct force; try (destruct (truthy _));
    try (destruct (existsb (String.eqb c) l));
    (now apply none_add) || (now apply none_remove).
Qed.

End Classes.

(** Is [x] one of the six zoom classes. *)
Lemma zoom_class_sym (x : string) :
  existsb (fun c => String.eqb c x) zoom_classes
  = existsb (String.eqb x) zoom_classes.
Proof.
  simpl. now rewrite !(String.eqb_sym x).
Qed.

Lemma level_class (z : N) :
  In z levels ->
  existsb (String.eqb ("zoom-" ++ Text.digits z)%string) zoom_classes = true.
Proof.
  intros H. simpl in H.
  repeat (destruct H as [<-|H]; [reflexivity|]). destruct H.
Qed.

(** X17.  Applying the zoom leaves exactly one zoom class on the output
    container, the class of the current level, and keeps every other class
    of the container. *)
Theorem applyZoom_one_class (pg : Page) :
  In (zoomLevel (app pg)) levels ->
  let zoom := fun x => existsb (String.eqb x) zoom_classes in
  filter zoom (container (applyZoom pg))
  = [("zoom-" ++ Text.digits (zoomLevel (app pg)))%string]
  /\ filter (fun x => negb (zoom x)) (container (applyZoom pg))
     = filter (fun x => negb (zoom x)) (container pg).
Proof.
  intros H zoom. rewrite container_applyZoom, remove_all.
  assert (Hext : forall l,
             filter (fun x => negb (existsb (fun c => String.eqb c x)
                                            zoom_classes)) l
             = filter (fun x => negb (zoom x)) l).
  { intros l. apply filter_ext. intros x. now rewrite zoom_class_sym. }
  rewrite Hext.
  pose proof (level_class _ H) as Hz. fold (zoom ("zoom-" ++ Text.digits (zoomLevel (app pg)))%string) in Hz.
  unfold class_add.
  rewrite (none_absent zoom _ _ (filter_out_none zoom (container pg)) Hz).
  rewrite !filter_app, filter_out_none, filter_out_twice.
  cbn [filter]. rewrite Hz. simpl. now rewrite app_nil_r.
Qed.

Lemma ends_in_e (t z : string) :
  (t ++ "-mode")%string = z ->
  String.get (String.length z - 1) z = Some "e"%char.
Proof.
  intros <-. rewrite StrFacts.length_append.
  replace (String.length t + String.length "-mode" - 1)
    with (4 + String.length t) by (simpl; lia).
  rewrite <- String.append_correct2. reflexivity.
Qed.

Lemma mode_class_not_zoom (t : string) :
  existsb (String.eqb (t ++ "-mode")%string) zoom_classes = false.
Proof.
  unfold zoom_classes. cbn [existsb].
  repeat match goal with
         | |- context [String.eqb ?a ?b] =>
             let E := fresh "E" in
             destruct (String.eqb a b) eqn:E;
             [apply String.eqb_eq in E; apply ends_in_e in E;
              vm_compute in E; discriminate E|]
         end.
  reflexivity.
Qed.

(** X18.  Showing an output resets the classes of the output container:
    no zoom class is left on it, while the zoom level the page remembers
    is unchanged. *)
Theorem display_drops_zoom_class (number_text : N -> string) (pg : Page) :
  has_output (app pg) = true ->
  let pg' := page_of (updateOutputDisplay number_text pg) in
  filter (fun x => existsb (String.eqb x) zoom_classes) (container pg') = []
  /\ zoomLevel (app pg') = zoomLevel (app pg).
Proof.
  intros H. cbv zeta. unfold updateOutputDisplay. rewrite H.
  set (token := (Text.to_string (get (settings (app pg)) "colorMode")
                 ++ "-mode")%string).
  destruct (negb (token_ok token)); [split; reflexivity|].
  cbn [page_of container app]. split; [|reflexivity].
  set (zoom := fun x => existsb (String.eqb x) zoom_classes).
  assert (Htoken : zoom token = false) by apply mode_class_not_zoom.
  apply none_toggle; [|reflexivity].
  assert (H0 : filter zoom (class_add ["output-container"] token) = [])
    by (apply none_add; [reflexivity|exact Htoken]).
  destruct (truthy (get (settings (app pg)) "autoFit")); [|exact H0].
  apply none_add; [exact H0|reflexivity].
Qed.

End ZoomFacts.

(* ------------------------------------------------------------------------- *)
(** ** Generating and showing the output *)

Module SessionFacts.

Import Js Renderer Page Session.

Section Generate.

Variable number_text : N -> string.

Lemma generateAsciiArt_sends (w : Main.World) (pg : Page) (s : Main.State)
    (imagePath : string) :
  selectedImagePath (app pg) = Some imagePath ->
  String.eqb imagePath "" = false ->
  isProcessing (app pg) = false ->
  let a1 := showLoading (with_isProcessing (app pg) true) true in
  generateAsciiArt number_text w pg s
  = match Main.process_image w s imagePath (processingSettings (app pg)) with
    | (Main.Resolved out, s1) =>
        match
          updateOutputDisplay number_text
            (with_app pg (with_asciiOutput a1 (Some out)))
        with
        | Returned pg1 =>
            (with_app
               (mkPage (showStatus (app pg1)
                          "ASCII art generated successfully" "success")
                       (container pg1) (area pg1) false false)
               (showLoading
                  (with_isProcessing
                     (showStatus (app pg1)
                        "ASCII art generated successfully" "success")
                     false) false),
             snd (Main.save_settings s1 (settings (app pg1))))
        | Thrown pg1 =>
            (with_app pg1
               (showLoading
                  (with_isProcessing
                     (showStatus (app pg1) "Error generating ASCII art"
                                 "error") false) false),
             s1)
        end
    | (Main.Rejected _, s1) =>
        (with_app pg
           (showLoading
              (with_isProcessing
                 (showStatus a1 "Error generating ASCII art" "error")
                 false) false),
         s1)
    | (Main.Unsettled, s1) => (with_app pg a1, s1)
    end.
Proof.
  intros Hsel Hne Hproc a1. unfold generateAsciiArt.
  rewrite Hsel, Hne, Hproc. cbn [orb].
  change (processingSettings (showLoading (with_isProcessing (app pg) true) true))
    with (processingSettings (app pg)).
  destruct (Main.process_image w s imagePath (processingSettings (app pg)))
    as [[out|msg|] s1]; reflexivity.
Qed.

(** X19.  When the request for a conversion is never answered, the page
    stays in its processing state with the loading overlay shown, and
    every later click on Generate does nothing, whatever the main process
    would answer then. *)
Theorem generateAsciiArt_stays_busy (w : Main.World) (pg : Page)
    (s : Main.State) (imagePath : string) :
  selectedImagePath (app pg) = Some imagePath ->
  String.eqb imagePath "" = false ->
  isProcessing (app pg) = false ->
  fst (Main.process_image w s imagePath (processingSettings (app pg)))
  = Main.Unsettled ->
  let r := generateAsciiArt number_text w pg s in
  isProcessing (app (fst r)) = true
  /\ loading (app (fst r)) = true
  /\ asciiOutput (app (fst r)) = asciiOutput (app pg)
  /\ forall w' s', generateAsciiArt number_text w' (fst r) s' = (fst r, s').
Proof.
  intros Hsel Hne Hproc Hun. cbv zeta.
  rewrite (generateAsciiArt_sends w pg s imagePath Hsel Hne Hproc).
  destruct (Main.process_image w s imagePath (processingSettings (app pg)))
    as [[out|msg|] s1]; try discriminate Hun.
  cbn [fst]. repeat split.
  intros w' s'. unfold generateAsciiArt.
  cbn [app with_app selectedImagePath showLoading with_isProcessing
       isProcessing].
  rewrite Hsel. now rewrite orb_true_r.
Qed.

(** X20.  When the conversion is rejected, the page shows the fixed
    message "Error generating ASCII art", whatever the reason given by the
    main process, leaves the processing state, and keeps the previous
    output, its display and the state of the Save and Copy buttons. *)
Theorem generateAsciiArt_on_rejection (w : Main.World) (pg : Page)
    (s : Main.State) (imagePath message : string) :
  selectedImagePath (app pg) = Some imagePath ->
  String.eqb imagePath "" = false ->
  isProcessing (app pg) = false ->
  fst (Main.process_image w s imagePath (processingSettings (app pg)))
  = Main.Rejected message ->
  let pg' := fst (generateAsciiArt number_text w pg s) in
  status (app pg') = Some ("Error generating ASCII art", "error")
  /\ isProcessing (app pg') = false
  /\ loading (app pg') = false
  /\ asciiOutput (app pg') = asciiOutput (app pg)
  /\ settings (app pg') = settings (app pg)
  /\ area pg' = area pg
  /\ container pg' = container pg
  /\ save_disabled pg' = save_disabled pg
  /\ copy_disabled pg' = copy_disabled pg.
Proof.
  intros Hsel Hne Hproc Hrej. cbv zeta.
  rewrite (generateAsciiArt_sends w pg s imagePath Hsel Hne Hproc).
  destruct (Main.process_image w s imagePath (processingSettings (app pg)))
    as [[out|msg|] s1]; try discriminate Hrej.
  cbn [fst]. repeat split.
Qed.

(** X21.  When the conversion succeeds (and the colour mode makes a class
    name), the page holds the result, reports success, leaves the
    processing state, enables Save and Copy, and the settings of the page
    become the saved last settings.  If the result is the empty text, all
    this happens although the output area is left as it was. *)
Theorem generateAsciiArt_on_success (w : Main.World) (pg : Page)
    (s : Main.State) (imagePath out : string) :
  selectedImagePath (app pg) = Some imagePath ->
  String.eqb imagePath "" = false ->
  isProcessing (app pg) = false ->
  token_ok (Text.to_string (get (settings (app pg)) "colorMode") ++ "-mode")
  = true ->
  fst (Main.process_image w s imagePath (processingSettings (app pg)))
  = Main.Resolved out ->
  let r := generateAsciiArt number_text w pg s in
  let pg' := fst r in
  asciiOutput (app pg') = Some out
  /\ status (app pg') = Some ("ASCII art generated successfully", "success")
  /\ isProcessing (app pg') = false
  /\ loading (app pg') = false
  /\ save_disabled pg' = false
  /\ copy_disabled pg' = false
  /\ Main.lastSettings (Main.store (snd r)) = settings (app pg)
  /\ (out = "" -> area pg' = area pg /\ container pg' = container pg).
Proof.
  intros Hsel Hne Hproc Htok Hres. cbv zeta.
  rewrite (generateAsciiArt_sends w pg s imagePath Hsel Hne Hproc).
  destruct (Main.process_image w s imagePath (processingSettings (app pg)))
    as [[o|msg|] s1]; try discriminate Hres.
  cbn [fst] in Hres. injection Hres as ->.
  unfold updateOutputDisplay.
  cbn [app with_app with_asciiOutput showLoading with_isProcessing
       has_output asciiOutput settings].
  destruct (negb (String.eqb out "")) eqn:Hout.
  - rewrite Htok. cbn [negb fst snd].
    do 7 (split; [reflexivity|]).
    intros ->. discriminate Hout.
  - cbn [fst snd]. do 7 (split; [reflexivity|]).
    intros _. split; reflexivity.
Qed.

End Generate.

(** *** Colour codes *)

Lemma mem_app (c : ascii) (a b : string) :
  Str.mem c (a ++ b) = Str.mem c a || Str.mem c b.
Proof.
  induction a as [|x a IH]; simpl; [reflexivity|].
  now rewrite IH, orb_assoc.
Qed.

Lemma replace_newlines_plain (s : string) :
  Str.mem LF s = false -> replace_newlines s = s.
Proof.
  induction s as [|c rest IH]; [reflexivity|].
  intros H. cbn [Str.mem] in H. apply orb_false_iff in H as [Hc Hrest].
  rewrite Ascii.eqb_sym in Hc.
  cbn [replace_newlines]. rewrite Hc.
  destruct (Ascii.eqb c CR).
  - destruct rest as [|d rest']; [reflexivity|].
    assert (Hd : Ascii.eqb d LF = false).
    { cbn [Str.mem] in Hrest. apply orb_false_iff in Hrest as [Hd _].
      now rewrite Ascii.eqb_sym. }
    rewrite Hd. now rewrite (IH Hrest).
  - now rewrite (IH Hrest).
Qed.

Lemma replace_newlines_no_lf (s : string) :
  Str.mem LF (replace_newlines s) = false.
Proof.
  assert (H : forall n s, String.length s <= n ->
                          Str.mem LF (replace_newlines s) = false).
  { clear s. induction n as [|n IH]; intros s Hlen.
    - destruct s; [reflexivity|simpl in Hlen; lia].
    - destruct s as [|c rest]; [reflexivity|].
      simpl in Hlen. cbn [replace_newlines].
      destruct (Ascii.eqb c LF) eqn:Ec.
      + rewrite mem_app. rewrite IH by lia. reflexivity.
      + destruct (Ascii.eqb c CR) eqn:Er.
        * destruct rest as [|d rest'].
          -- cbn [Str.mem]. rewrite Ascii.eqb_sym, Ec. reflexivity.
          -- destruct (Ascii.eqb d LF) eqn:Ed.
             ++ rewrite mem_app. simpl in Hlen. rewrite IH by lia.
                reflexivity.
             ++ cbn [Str.mem]. rewrite (Ascii.eqb_sym LF c), Ec.
                rewrite IH by lia. reflexivity.
        * cbn [Str.mem]. rewrite (Ascii.eqb_sym LF c), Ec.
          rewrite IH by lia. reflexivity. }
  exact (H (String.length s) s (le_n _)).
Qed.

Section Ansi.

Variable number_text : N -> string.

Lemma replace_ansi_plain (s : string) :
  Str.mem ESC s = false -> replace_ansi number_text 0 s = s.
Proof.
  induction s as [|c rest IH]; [reflexivity|].
  intros H. cbn [Str.mem] in H. apply orb_false_iff in H as [Hc Hrest].
  cbn [replace_ansi].
  assert (Hm : ansi_match (String c rest) = None).
  { unfold ansi_match. destruct rest as [|b rest']; [reflexivity|].
    rewrite (Ascii.eqb_sym c ESC), Hc. reflexivity. }
  rewrite Hm. now rewrite (IH Hrest).
Qed.

(** X22.  A text without colour codes and line feeds whose span tags are
    balanced comes out exactly as it went in: nothing in it is escaped,
    markup included, before it becomes the HTML of the output area. *)
Theorem processAnsiOutput_plain (s : string) :
  Str.mem ESC s = false ->
  Str.mem LF s = false ->
  Scan.count_matches "<span" s <= Scan.count_matches "</span>" s ->
  processAnsiOutput number_text s = s.
Proof.
  intros Hesc Hlf Hcount. unfold processAnsiOutput.
  rewrite (replace_newlines_plain s Hlf), (replace_ansi_plain s Hesc).
  replace (Scan.count_matches "<span" s - Scan.count_matches "</span>" s)
    with 0 by lia.
  reflexivity.
Qed.

Hypothesis number_text_no_lf : forall n, Str.mem LF (number_text n) = false.

Lemma param_or_no_lf (params : list N) (i : nat) (d : N) :
  Str.mem LF (param_or number_text params i d) = false.
Proof.
  unfold param_or. destruct (nth_error params i) as [n|];
    [destruct (N.eqb n 0)|]; apply number_text_no_lf.
Qed.

Lemma ansi_span_no_lf (p1 : string) :
  Str.mem LF (ansi_span number_text p1) = false.
Proof.
  unfold ansi_span.
  set (params := map Scan.number (Str.split_on ";" p1)).
  destruct (nth_error params 0) as [n|]; [|reflexivity].
  destruct n as [|p]; [reflexivity|].
  do 6 (try destruct p as [p|p|]); try reflexivity.
  destruct (nth_error params 1) as [m|]; [|reflexivity].
  destruct m as [|q]; [reflexivity|].
  do 3 (try destruct q as [q|q|]); try reflexivity;
    cbn [Str.mem]; rewrite ?mem_app; cbn [Str.mem];
    rewrite ?mem_app, ?param_or_no_lf; reflexivity.
Qed.

Lemma replace_ansi_no_lf (s : string) :
  forall skip,
    Str.mem LF s = false ->
    Str.mem LF (replace_ansi number_text skip s) = false.
Proof.
  induction s as [|c rest IH]; intros skip H; [reflexivity|].
  cbn [Str.mem] in H. apply orb_false_iff in H as [Hc Hrest].
  cbn [replace_ansi]. destruct skip as [|k]; [|now apply IH].
  destruct (ansi_match (String c rest)) as [p1|].
  - rewrite mem_app, ansi_span_no_lf. now apply IH.
  - cbn [Str.mem]. rewrite Hc. now apply IH.
Qed.

Lemma append_closers_no_lf (n : nat) :
  forall p, Str.mem LF p = false ->
            Str.mem LF (append_closers n p) = false.
Proof.
  induction n as [|n IH]; intros p H; [exact H|].
  cbn [append_closers]. apply IH. rewrite mem_app, H. reflexivity.
Qed.

(** X23.  The markup made from the engine's output holds no line feed:
    every line break of the text has become a [<br>]. *)
Theorem processAnsiOutput_no_line_feed (s : string) :
  Str.mem LF (processAnsiOutput number_text s) = false.
Proof.
  unfold processAnsiOutput.
  apply append_closers_no_lf, replace_ansi_no_lf, replace_newlines_no_lf.
Qed.

End Ansi.

End SessionFacts.

(* ------------------------------------------------------------------------- *)
(** ** The further properties on the samples *)

Module MoreChecks.

Import Js Renderer Main Interpreter Page Session.

Local Open Scope list_scope.

Lemma cache_holds_last_ten_witness :
  processCache
    (fold_left
       (fun s kv => snd (on_close (mkRunning (fst kv) None) (Some 0%Z) ""
                                  (ReadOk (snd kv)) s))
       Sample.eleven_results initial_state)
  = tl Sample.eleven_results.
Proof.
  exact (MainMoreFacts.cache_holds_last_ten
           Sample.eleven_results initial_state eq_refl eq_refl).
Defined.

Lemma restore_keeps_place_witness :
  cache_get (processCache Sample.after_one_conversion)
            (getCacheKey "cat.png" default_settings) = Some "@#"
  /\ cache_keys
       (processCache
          (snd (on_close
                  (mkRunning (getCacheKey "cat.png" default_settings) None)
                  (Some 0%Z) "" (ReadOk "new") Sample.after_one_conversion)))
     = cache_keys (processCache Sample.after_one_conversion).
Proof.
  split; [reflexivity|].
  refine (proj1 (MainMoreFacts.restore_keeps_place
                   (mkRunning (getCacheKey "cat.png" default_settings) None)
                   "" "new" "@#" Sample.after_one_conversion eq_refl _)).
  vm_compute. lia.
Defined.

Lemma process_image_unsettled_witness :
  fst (process_image (Sample.working_world "@#") initial_state "cat.png"
                     Scenes.null_blur_settings) = Unsettled.
Proof.
  exact (proj2 (proj1 (MainMoreFacts.process_image_unsettled
                         (Sample.working_world "@#") initial_state "cat.png"
                         Scenes.null_blur_settings))
               (conj eq_refl (conj eq_refl (conj eq_refl eq_refl)))).
Defined.

Lemma process_image_tracks_nothing_witness :
  incl (activeProcesses
          (snd (process_image (Sample.working_world "@#") initial_state
                              "cat.png" default_settings)))
       (activeProcesses initial_state).
Proof.
  exact (proj1 (MainMoreFacts.process_image_tracks_nothing
                  (Sample.working_world "@#") initial_state "cat.png"
                  default_settings)).
Defined.


Lemma build_args_reads_processing_keys_witness :
  build_args Sample.bare_world initial_state "cat.png" default_settings
  = build_args Sample.bare_world initial_state "cat.png"
               Scenes.large_font_settings.
Proof.
  apply MainMoreFacts.build_args_reads_processing_keys.
  repeat (constructor; [reflexivity|]). constructor.
Defined.

Lemma loadSettings_merges_witness :
  get (settings (loadSettings initial_app Scenes.narrow_reply)) "outputWidth"
  = VNum (Fin 80 0).
Proof.
  exact (proj1 (PageFacts.loadSettings_merges initial_app Scenes.narrow_reply
                  eq_refl eq_refl)
               "outputWidth" (VNum (Fin 80 0)) (or_introl eq_refl)).
Defined.

Lemma applyPreset_effect_witness :
  exists a',
    applyPreset (Some initial_app) (Some PRESETS_photo) = Some a'
    /\ get (settings a') "outputWidth" = VNum (Fin 120 0)
    /\ get (settings a') "customChars" = VStr "".
Proof.
  destruct (PageFacts.applyPreset_effect initial_app PRESETS_photo
              eq_refl eq_refl) as (a' & Ha & Hin & Hout).
  exists a'. split; [exact Ha|]. split.
  - apply Hin; [simpl; tauto|].
    simpl. intros H. repeat (destruct H as [H|H]; [discriminate H|]). exact H.
  - rewrite Hout; [reflexivity| |];
      simpl; intros H; repeat (destruct H as [H|H]; [discriminate H|]); exact H.
Defined.


Lemma saved_preset_restores_witness :
  exists a',
    window_app
      (choosePreset
         (mkPresetPage
            (Some initial_app)
            (presets (saveCustomPreset toLowerCase Scenes.presets_page
                                       (Some "Photo")))
            (options (saveCustomPreset toLowerCase Scenes.presets_page
                                       (Some "Photo"))))
         (toLowerCase "Photo"))
    = Some a'
    /\ (forall k, In k saved_keys ->
                  get (settings a') k = get (settings Scenes.cat_app) k)
    /\ (forall k, ~ In k saved_keys ->
                  get (settings a') k = get (settings initial_app) k).
Proof.
  exact (proj1 (PresetFacts.saved_preset_restores toLowerCase
                  Scenes.presets_page Scenes.cat_app initial_app "Photo"
                  eq_refl eq_refl eq_refl eq_refl)).
Defined.

Lemma zoom_stays_on_scale_witness :
  In (zoomLevel (app (fold_left press
                        [ZoomInButton; ZoomInButton; ZoomInButton;
                         ZoomInButton; ZoomOutButton]
                        Scenes.cat_page)))
     levels.
Proof.
  exact (proj1 (ZoomFacts.zoom_stays_on_scale Scenes.cat_page
                  [ZoomInButton; ZoomInButton; ZoomInButton;
                   ZoomInButton; ZoomOutButton]
                  (or_intror (or_intror (or_introl eq_refl))))).
Defined.

Lemma zoomOut_undoes_zoomIn_witness :
  zoomLevel (app (zoomOut (zoomIn Scenes.cat_page)))
  = zoomLevel (app Scenes.cat_page).
Proof.
  refine (proj1 (ZoomFacts.zoomOut_undoes_zoomIn Scenes.cat_page
                   (or_intror (or_intror (or_introl eq_refl)))) _).
  simpl. lia.
Defined.

Lemma applyZoom_one_class_witness :
  filter (fun x => existsb (String.eqb x) zoom_classes)
         (container (applyZoom Scenes.shown_page))
  = ["zoom-100"].
Proof.
  exact (proj1 (ZoomFacts.applyZoom_one_class Scenes.shown_page
                  (or_intror (or_intror (or_introl eq_refl))))).
Defined.

Lemma display_drops_zoom_class_witness :
  filter (fun x => existsb (String.eqb x) zoom_classes)
         (container (page_of (updateOutputDisplay decimal_text
                                                  Scenes.shown_page)))
  = []
  /\ zoomLevel (app (page_of (updateOutputDisplay decimal_text
                                                  Scenes.shown_page)))
     = zoomLevel (app Scenes.shown_page).
Proof.
  exact (ZoomFacts.display_drops_zoom_class decimal_text Scenes.shown_page
           eq_refl).
Defined.

Lemma generateAsciiArt_stays_busy_witness :
  isProcessing
    (app (fst (generateAsciiArt decimal_text (Sample.working_world "@#")
                                Scenes.null_blur_page initial_state)))
  = true.
Proof.
  exact (proj1 (SessionFacts.generateAsciiArt_stays_busy decimal_text
                  (Sample.working_world "@#") Scenes.null_blur_page
                  initial_state "cat.png" eq_refl eq_refl eq_refl eq_refl)).
Defined.

Lemma generateAsciiArt_on_rejection_witness :
  status (app (fst (generateAsciiArt decimal_text Sample.bare_world
                                     Scenes.cat_page initial_state)))
  = Some ("Error generating ASCII art", "error").
Proof.
  exact (proj1 (SessionFacts.generateAsciiArt_on_rejection decimal_text
                  Sample.bare_world Scenes.cat_page initial_state "cat.png"
                  _ eq_refl eq_refl eq_refl eq_refl)).
Defined.

Lemma generateAsciiArt_on_success_witness :
  asciiOutput
    (app (fst (generateAsciiArt decimal_text (Sample.working_world "@#")
                                Scenes.cat_page initial_state)))
  = Some "@#".
Proof.
  exact (proj1 (SessionFacts.generateAsciiArt_on_success decimal_text
                  (Sample.working_world "@#") Scenes.cat_page initial_state
                  "cat.png" "@#" eq_refl eq_refl eq_refl eq_refl eq_refl)).
Defined.

Lemma processAnsiOutput_plain_witness :
  processAnsiOutput decimal_text "<b>@#</b>" = "<b>@#</b>".
Proof.
  exact (SessionFacts.processAnsiOutput_plain decimal_text "<b>@#</b>"
           eq_refl eq_refl (le_n 0)).
Defined.

Lemma uint_no_lf (u : Decimal.uint) :
  Str.mem LF (NilEmpty.string_of_uint u) = false.
Proof. induction u; simpl; [reflexivity|exact IHu ..]. Qed.

Lemma processAnsiOutput_no_line_feed_witness :
  Str.mem LF (processAnsiOutput decimal_text
                ("a" ++ String LF (String ESC "[38;5;12mb")))
  = false.
Proof.
  exact (SessionFacts.processAnsiOutput_no_line_feed decimal_text
           (fun n => uint_no_lf (N.to_uint n))
           ("a" ++ String LF (String ESC "[38;5;12mb"))).
Defined.

End MoreChecks.
